(** * The command surface of catalyst: [src/main.py]

    A shallow embedding of the five click commands [run], [live],
    [remote_run], [remote_status] and [ingest_exchange], of the
    [ipython_only] decorator, and of the regular expression that
    [remote_run] applies to the mail option.

    A command is a Python function that raises ([ctx.fail], a failed
    [file.write]), writes to the console and to files, and calls the
    execution engine.  It is embedded as a computation in a writer and
    error monad: the value of a command is the list of the effects it
    performed, in order, together with the way it ended.  The engine,
    the remote backend and the file system are parameters, and each of
    their calls may raise; writing to the console is taken to succeed. *)

From Stdlib Require Import String Ascii List Bool Arith ZArith Lia PrimFloat.
Import ListNotations.
Local Open Scope string_scope.
Local Open Scope list_scope.

Set Implicit Arguments.

(** ** Python values the commands handle *)

(** [x is not None] and [x is None] on an optional value. *)
Definition is_not_None {A : Type} (x : option A) : bool :=
  match x with Some _ => true | None => false end.

Definition is_None {A : Type} (x : option A) : bool :=
  negb (is_not_None x).

(** [not s] on an optional string: [None] and the empty string are falsy. *)
Definition py_not (s : option string) : bool :=
  match s with
  | None => true
  | Some EmptyString => true
  | Some (String _ _) => false
  end.

(** A [pandas.Timestamp], as nanoseconds since the epoch. *)
Definition Timestamp : Type := Z.

(** The performance frame the engine returns.  The commands only take its
    [str] and call its [to_pickle] method. *)
Record DataFrame : Type := { frame_str : string }.

(** [os.environ]. *)
Definition environment : Type := list (string * string).

(** [str(x)] for a value that is a string or [None]. *)
Definition py_str (x : option string) : string :=
  match x with Some s => s | None => "None" end.

(** *** [repr] of a string and [str] of a list of strings

    [format] renders the list [EXCHANGE_NAMES] with [str], which renders
    every element with [repr].  The rendering below is the one of CPython
    on ASCII text; bytes above 127 are copied (CPython escapes the
    code points that are not printable). *)

Definition quote1 : ascii := "'"%char.
Definition quote2 : ascii := ascii_of_nat 34.
Definition backslash : ascii := "\"%char.

Fixpoint contains_char (c : ascii) (s : string) : bool :=
  match s with
  | EmptyString => false
  | String d s' => Ascii.eqb c d || contains_char c s'
  end.

Definition hex_digit (n : nat) : ascii :=
  nth n (list_ascii_of_string "0123456789abcdef") "0"%char.

Definition repr_char (q c : ascii) : string :=
  if Ascii.eqb c q || Ascii.eqb c backslash then String backslash (String c "")
  else if Ascii.eqb c (ascii_of_nat 9) then String backslash "t"
  else if Ascii.eqb c (ascii_of_nat 10) then String backslash "n"
  else if Ascii.eqb c (ascii_of_nat 13) then String backslash "r"
  else
    let n := nat_of_ascii c in
    if Nat.ltb n 32 || Nat.eqb n 127 then
      String backslash
        (String "x" (String (hex_digit (n / 16)) (String (hex_digit (n mod 16)) "")))
    else String c "".

Fixpoint repr_body (q : ascii) (s : string) : string :=
  match s with
  | EmptyString => ""
  | String c s' => repr_char q c ++ repr_body q s'
  end.

Definition py_repr (s : string) : string :=
  let q := if contains_char quote1 s && negb (contains_char quote2 s)
           then quote2 else quote1 in
  String q (repr_body q s ++ String q "").

(** [", ".join(items)]. *)
Fixpoint join_comma (items : list string) : string :=
  match items with
  | [] => ""
  | [x] => x
  | x :: rest => x ++ ", " ++ join_comma rest
  end.

Definition py_str_list (l : list string) : string :=
  "[" ++ join_comma (map py_repr l) ++ "]".

(** ** Regular expressions and [re.match]

    The fragment of [re] that the mail pattern uses: a literal character,
    a negated one-character class, concatenation and [+].  Matching is by
    derivatives. *)

Inductive regex : Type :=
| Void : regex                       (* matches no text *)
| Eps : regex                        (* matches the empty text *)
| Lit : ascii -> regex               (* the character itself *)
| NotLit : ascii -> regex            (* [^c] *)
| Cat : regex -> regex -> regex
| Alt : regex -> regex -> regex
| Star : regex -> regex.

(** [r+] *)
Definition Plus (r : regex) : regex := Cat r (Star r).

Fixpoint nullable (r : regex) : bool :=
  match r with
  | Void => false
  | Eps => true
  | Lit _ => false
  | NotLit _ => false
  | Cat r1 r2 => nullable r1 && nullable r2
  | Alt r1 r2 => nullable r1 || nullable r2
  | Star _ => true
  end.

Fixpoint deriv (c : ascii) (r : regex) : regex :=
  match r with
  | Void => Void
  | Eps => Void
  | Lit d => if Ascii.eqb c d then Eps else Void
  | NotLit d => if Ascii.eqb c d then Void else Eps
  | Cat r1 r2 =>
      if nullable r1 then Alt (Cat (deriv c r1) r2) (deriv c r2)
      else Cat (deriv c r1) r2
  | Alt r1 r2 => Alt (deriv c r1) (deriv c r2)
  | Star r1 => Cat (deriv c r1) (Star r1)
  end.

(** [re.match(r, s)] looks for a match that starts at the first character
    of [s] and may stop anywhere: [true] when a match object is returned,
    [false] for [None]. *)
Fixpoint match_prefix (r : regex) (s : list ascii) : bool :=
  nullable r ||
  match s with
  | [] => false
  | c :: s' => match_prefix (deriv c r) s'
  end.

Definition re_match (r : regex) (s : string) : bool :=
  match_prefix r (list_ascii_of_string s).

(** The pattern of [remote_run], [[^@]+@[^@]+\.[^@]+]. *)
Definition mail_pattern : regex :=
  Cat (Plus (NotLit "@"))
      (Cat (Lit "@")
           (Cat (Plus (NotLit "@"))
                (Cat (Lit ".") (Plus (NotLit "@"))))).

(** The denotation of a regular expression. *)
Inductive Matches : regex -> list ascii -> Prop :=
| M_Eps : Matches Eps []
| M_Lit : forall c, Matches (Lit c) [c]
| M_NotLit : forall c d, c <> d -> Matches (NotLit d) [c]
| M_Cat : forall r1 r2 s1 s2,
    Matches r1 s1 -> Matches r2 s2 -> Matches (Cat r1 r2) (s1 ++ s2)
| M_AltL : forall r1 r2 s, Matches r1 s -> Matches (Alt r1 r2) s
| M_AltR : forall r1 r2 s, Matches r2 s -> Matches (Alt r1 r2) s
| M_Star0 : forall r, Matches (Star r) []
| M_StarS : forall r s1 s2,
    Matches r s1 -> Matches (Star r) s2 -> Matches (Star r) (s1 ++ s2).

Definition no_at (s : list ascii) : Prop := ~ In "@"%char s.

(** The shape the specification describes, [local-part@domain.tld], on the
    characters of the whole address: a local part, [@], a domain, a dot
    and a top-level part, the three parts non-empty and free of [@]. *)
Definition address_shape (mail : string) : Prop :=
  exists local domain tld,
    list_ascii_of_string mail = local ++ "@"%char :: domain ++ "."%char :: tld
    /\ local <> [] /\ domain <> [] /\ tld <> []
    /\ no_at local /\ no_at domain /\ no_at tld.

(** What [re.match] on the pattern decides, which is less: the address
    begins with a non-empty local part and a non-empty domain, both free
    of [@], separated by [@], then a dot and one further character that
    is not [@].  What follows that character is not looked at, since
    [re.match] does not anchor the end. *)

Definition mail_shape (mail : string) : Prop :=
  exists local domain c rest,
    list_ascii_of_string mail = local ++ "@"%char :: domain ++ "."%char :: c :: rest
    /\ local <> [] /\ domain <> []
    /\ no_at local /\ no_at domain /\ c <> "@"%char.

(** ** Options of the commands

    One record per command, with the parameters of the Python function
    (the click context apart).  [algofile] is the file click opened,
    kept by its name. *)

Module Run.
Record options : Type := {
  algofile : option string;
  algotext : option string;
  define : list string;
  data_frequency : string;
  capital_base : option float;
  bundle : string;
  bundle_timestamp : Timestamp;
  start : option Timestamp;
  end_ : option Timestamp;
  output : string;
  print_algo : bool;
  local_namespace : option bool;
  exchange_name : option string;
  algo_namespace : option string;
  quote_currency : option string
}.

(** [kwargs['local_namespace'] = None] *)
Definition clear_local_namespace (o : options) : options :=
  {| algofile := algofile o; algotext := algotext o; define := define o;
     data_frequency := data_frequency o; capital_base := capital_base o;
     bundle := bundle o; bundle_timestamp := bundle_timestamp o;
     start := start o; end_ := end_ o; output := output o;
     print_algo := print_algo o; local_namespace := None;
     exchange_name := exchange_name o; algo_namespace := algo_namespace o;
     quote_currency := quote_currency o |}.
End Run.

Module Live.
Record options : Type := {
  algofile : option string;
  capital_base : option float;
  algotext : option string;
  define : list string;
  output : string;
  print_algo : bool;
  local_namespace : option bool;
  exchange_name : option string;
  algo_namespace : option string;
  quote_currency : option string;
  start : option Timestamp;
  end_ : option Timestamp;
  live_graph : bool;
  auth_aliases : option string;
  simulate_orders : bool
}.

Definition clear_local_namespace (o : options) : options :=
  {| algofile := algofile o; capital_base := capital_base o;
     algotext := algotext o; define := define o; output := output o;
     print_algo := print_algo o; local_namespace := None;
     exchange_name := exchange_name o; algo_namespace := algo_namespace o;
     quote_currency := quote_currency o; start := start o; end_ := end_ o;
     live_graph := live_graph o; auth_aliases := auth_aliases o;
     simulate_orders := simulate_orders o |}.
End Live.

Module RemoteRun.
Record options : Type := {
  algofile : option string;
  algotext : option string;
  define : list string;
  data_frequency : string;
  capital_base : option float;
  bundle : string;
  bundle_timestamp : Timestamp;
  start : option Timestamp;
  end_ : option Timestamp;
  mail : option string;
  print_algo : bool;
  local_namespace : option bool;
  exchange_name : option string;
  algo_namespace : option string;
  quote_currency : option string
}.

Definition clear_local_namespace (o : options) : options :=
  {| algofile := algofile o; algotext := algotext o; define := define o;
     data_frequency := data_frequency o; capital_base := capital_base o;
     bundle := bundle o; bundle_timestamp := bundle_timestamp o;
     start := start o; end_ := end_ o; mail := mail o;
     print_algo := print_algo o; local_namespace := None;
     exchange_name := exchange_name o; algo_namespace := algo_namespace o;
     quote_currency := quote_currency o |}.
End RemoteRun.

Module RemoteStatus.
Record options : Type := {
  algo_id : option string;
  data_output : string;
  log_output : string
}.
End RemoteStatus.

Module Ingest.
Record options : Type := {
  exchange_name : option string;
  data_frequency : string;
  start : option Timestamp;
  end_ : option Timestamp;
  include_symbols : option string;
  exclude_symbols : option string;
  csv : option string;
  show_progress : bool;
  verbose : bool;
  validate : bool
}.

End Ingest.

(** ** The collaborators' interfaces *)

(** The keyword arguments of [_run] and of [remote_backtest].  The
    arguments [initialize], [handle_data], [before_trading_start],
    [analyze], [data], [analyze_live] and [stats_output] are [None] at
    every call and are left out; [mail] is passed to [remote_backtest]
    only. *)
Record engine_kwargs : Type := {
  kw_algofile : option string;
  kw_algotext : option string;
  kw_defines : list string;
  kw_data_frequency : option string;
  kw_capital_base : option float;
  kw_bundle : option string;
  kw_bundle_timestamp : option Timestamp;
  kw_start : option Timestamp;
  kw_end : option Timestamp;
  kw_output : string;
  kw_print_algo : bool;
  kw_local_namespace : option bool;
  kw_environ : environment;
  kw_live : bool;
  kw_exchange : option string;
  kw_algo_namespace : option string;
  kw_quote_currency : option string;
  kw_live_graph : bool;
  kw_simulate_orders : bool;
  kw_auth_aliases : option string;
  kw_mail : option string
}.

(** The keyword arguments of [ExchangeBundle.ingest]. *)
Record ingest_kwargs : Type := {
  ik_data_frequency : string;
  ik_include_symbols : option string;
  ik_exclude_symbols : option string;
  ik_start : option Timestamp;
  ik_end : option Timestamp;
  ik_show_progress : bool;
  ik_show_breakdown : bool;
  ik_show_report : bool;
  ik_csv : option string
}.

(** What a call to a collaborator comes back with. *)
Inductive answer (A : Type) : Type :=
| Gives : A -> answer A
| Throws : string -> answer A.
Arguments Throws {A} _.

(** The response of [get_remote_status]: a bare status, or the tuple
    (status, perf, log), where perf and log may be [None]. *)
Inductive status_response : Type :=
| Bare : string -> status_response
| Triple : string -> option DataFrame -> option string -> status_response.

(** What [remote_status] returns: the bare response, or (status, perf). *)
Inductive status_result : Type :=
| Status_only : string -> status_result
| Status_perf : string -> option DataFrame -> status_result.

(** ** Effects and the command monad *)

Inductive stream : Type := stdout | stderr.

Inductive effect : Type :=
| Echo : stream -> string -> effect            (* click.echo(text, stream) *)
| Print : string -> effect                     (* print(text) *)
| Call_run : engine_kwargs -> effect           (* _run(...) *)
| Call_remote_backtest : engine_kwargs -> effect
| Call_get_remote_status : string -> effect
| To_pickle : DataFrame -> string -> effect    (* perf.to_pickle(path) *)
| Open_w : string -> effect                    (* open(path, 'w') *)
| File_write : string -> string -> effect      (* file.write(text) on path *)
| New_ExchangeBundle : string -> effect        (* ExchangeBundle(name) *)
| Call_ingest : string -> ingest_kwargs -> effect.

(** How a command ends.  [ctx.fail(msg)] raises [click.UsageError]. *)
Inductive ending (A : Type) : Type :=
| Returned : A -> ending A
| UsageError : string -> ending A
| Raised : string -> ending A.
Arguments UsageError {A} _.
Arguments Raised {A} _.

Definition Cmd (A : Type) : Type := (list effect * ending A)%type.

Definition ret {A : Type} (v : A) : Cmd A := ([], Returned v).

Definition bind {A B : Type} (m : Cmd A) (k : A -> Cmd B) : Cmd B :=
  match snd m with
  | Returned v => (fst m ++ fst (k v), snd (k v))
  | UsageError msg => (fst m, UsageError msg)
  | Raised exn => (fst m, Raised exn)
  end.

Notation "x <- m ;; k" := (bind m (fun x => k))
  (at level 61, m at next level, right associativity).
Notation "m ;; k" := (bind m (fun _ => k))
  (at level 61, right associativity).

Definition perform (e : effect) : Cmd unit := ([e], Returned tt).

Definition ctx_fail {A : Type} (msg : string) : Cmd A := ([], UsageError msg).

Definition raise {A : Type} (exn : string) : Cmd A := ([], Raised exn).

(** [if cond: ctx.fail(msg)] *)
Definition fail_if (cond : bool) (msg : string) : Cmd unit :=
  if cond then ctx_fail msg else ret tt.

(** A call to a collaborator or to the file system: the call is
    recorded, an exception it raises propagates. *)
Definition call {A : Type} (e : effect) (a : answer A) : Cmd A :=
  perform e ;;
  match a with
  | Gives v => ret v
  | Throws exn => raise exn
  end.

Definition trace {A : Type} (m : Cmd A) : list effect := fst m.
Definition result {A : Type} (m : Cmd A) : ending A := snd m.

(** The exit status of the process in click's standalone mode: a
    [UsageError] exits with 2, an uncaught exception with 1. *)
Definition exit_code {A : Type} (m : Cmd A) : Z :=
  match result m with
  | Returned _ => 0%Z
  | UsageError _ => 2%Z
  | Raised _ => 1%Z
  end.

(** The verdict of the validation: accepted, or rejected with the
    diagnostic of [ctx.fail]. *)
Definition verdict {A : Type} (m : Cmd A) : option string :=
  match result m with
  | UsageError msg => Some msg
  | _ => None
  end.

(** The calls to the execution and submission collaborators. *)
Definition is_engine_call (e : effect) : bool :=
  match e with
  | Call_run _ | Call_remote_backtest _ => true
  | _ => false
  end.

Definition engine_calls (t : list effect) : list effect :=
  filter is_engine_call t.

(** The effects that put an artifact into a file. *)
Definition is_file_write (e : effect) : bool :=
  match e with
  | To_pickle _ _ | Open_w _ | File_write _ _ => true
  | _ => false
  end.

Definition file_writes (t : list effect) : list effect :=
  filter is_file_write t.

(** ** The decorator [ipython_only]

    Under IPython the click option is registered and the function is
    called with what the operator passed.  Otherwise the option does not
    exist, and the wrapper [_] sets the argument to [None] before it calls
    the function; [clear] is [kwargs[argname] = None] for the record of
    the decorated command. *)
Definition ipython_only {O A : Type} (__IPYTHON__ : bool)
    (clear : O -> O) (f : O -> Cmd A) : O -> Cmd A :=
  if __IPYTHON__ then f else fun kwargs => f (clear kwargs).





(** ** The commands *)

Definition newline : string := String (ascii_of_nat 10) "".

Section Commands.

(** [os.devnull], [os.environ], and the names imported from the
    packages that are not part of this file. *)
Variable devnull : string.
Variable environ : environment.
Variable EXCHANGE_NAMES : list string.
Variable _run : engine_kwargs -> answer DataFrame.
Variable remote_backtest : engine_kwargs -> answer string.
Variable get_remote_status : string -> answer status_response.

(** The file system, as far as the commands use it: [open(path, 'w')],
    [file.write(text)] on the file opened at [path], and
    [perf.to_pickle(path)].  Each of them may raise. *)
Variable open_w : string -> answer unit.
Variable file_write : string -> string -> answer unit.
Variable to_pickle : DataFrame -> string -> answer unit.

Definition run_kwargs (o : Run.options) : engine_kwargs :=
  {| kw_algofile := Run.algofile o;
     kw_algotext := Run.algotext o;
     kw_defines := Run.define o;
     kw_data_frequency := Some (Run.data_frequency o);
     kw_capital_base := Run.capital_base o;
     kw_bundle := Some (Run.bundle o);
     kw_bundle_timestamp := Some (Run.bundle_timestamp o);
     kw_start := Run.start o;
     kw_end := Run.end_ o;
     kw_output := Run.output o;
     kw_print_algo := Run.print_algo o;
     kw_local_namespace := Run.local_namespace o;
     kw_environ := environ;
     kw_live := false;
     kw_exchange := Run.exchange_name o;
     kw_algo_namespace := Run.algo_namespace o;
     kw_quote_currency := Run.quote_currency o;
     kw_live_graph := false;
     kw_simulate_orders := true;
     kw_auth_aliases := None;
     kw_mail := None |}.

(** [run]: a backtest for the given algorithm. *)
Definition run (o : Run.options) : Cmd DataFrame :=
  fail_if (Bool.eqb (is_not_None (Run.algotext o))
                    (is_not_None (Run.algofile o)))
    "must specify exactly one of '-f' / '--algofile' or '-t' / '--algotext'" ;;
  fail_if (is_None (Run.start o) && is_None (Run.end_ o))
    "must specify dates with '-s' / '--start' and '-e' / '--end' in backtest mode" ;;
  fail_if (is_None (Run.start o))
    "must specify a start date with '-s' / '--start' in backtest mode" ;;
  fail_if (is_None (Run.end_ o))
    "must specify an end date with '-e' / '--end' in backtest mode" ;;
  fail_if (is_None (Run.exchange_name o))
    "must specify an exchange name '-x'" ;;
  fail_if (is_None (Run.quote_currency o))
    "must specify a quote currency with '-c' in backtest mode" ;;
  fail_if (is_None (Run.capital_base o))
    "must specify a capital base with '--capital-base'" ;;
  perform (Echo stdout "Running in backtesting mode.") ;;
  perf <- call (Call_run (run_kwargs o)) (_run (run_kwargs o)) ;;
  (if Run.output o =? "--" then ret tt
   else if Run.output o =? "-" then perform (Echo stdout (frame_str perf))
   else if negb (Run.output o =? devnull)
        then call (To_pickle perf (Run.output o))
                  (to_pickle perf (Run.output o))
   else ret tt) ;;
  ret perf.

Definition live_kwargs (o : Live.options) : engine_kwargs :=
  {| kw_algofile := Live.algofile o;
     kw_algotext := Live.algotext o;
     kw_defines := Live.define o;
     kw_data_frequency := None;
     kw_capital_base := Live.capital_base o;
     kw_bundle := None;
     kw_bundle_timestamp := None;
     kw_start := Live.start o;
     kw_end := Live.end_ o;
     kw_output := Live.output o;
     kw_print_algo := Live.print_algo o;
     kw_local_namespace := Live.local_namespace o;
     kw_environ := environ;
     kw_live := true;
     kw_exchange := Live.exchange_name o;
     kw_algo_namespace := Live.algo_namespace o;
     kw_quote_currency := Live.quote_currency o;
     kw_live_graph := Live.live_graph o;
     kw_simulate_orders := Live.simulate_orders o;
     kw_auth_aliases := Live.auth_aliases o;
     kw_mail := None |}.

(** [live]: trade live with the given algorithm. *)
Definition live (o : Live.options) : Cmd DataFrame :=
  fail_if (Bool.eqb (is_not_None (Live.algotext o))
                    (is_not_None (Live.algofile o)))
    "must specify exactly one of '-f' / '--algofile' or '-t' / '--algotext'" ;;
  fail_if (is_None (Live.exchange_name o))
    "must specify an exchange name '-x'" ;;
  fail_if (is_None (Live.algo_namespace o))
    "must specify an algorithm name '-n' in live execution mode" ;;
  fail_if (is_None (Live.quote_currency o))
    "must specify a quote currency '-c' in live execution mode" ;;
  fail_if (is_None (Live.capital_base o))
    "must specify a capital base with '--capital-base'" ;;
  (if Live.simulate_orders o
   then perform (Echo stdout "Running in paper trading mode.")
   else perform (Echo stdout "Running in live trading mode.")) ;;
  perf <- call (Call_run (live_kwargs o)) (_run (live_kwargs o)) ;;
  (if Live.output o =? "-" then perform (Echo stdout (frame_str perf))
   else if negb (Live.output o =? devnull)
        then call (To_pickle perf (Live.output o))
                  (to_pickle perf (Live.output o))
   else ret tt) ;;
  ret perf.

Definition remote_kwargs (o : RemoteRun.options) : engine_kwargs :=
  {| kw_algofile := RemoteRun.algofile o;
     kw_algotext := RemoteRun.algotext o;
     kw_defines := RemoteRun.define o;
     kw_data_frequency := Some (RemoteRun.data_frequency o);
     kw_capital_base := RemoteRun.capital_base o;
     kw_bundle := Some (RemoteRun.bundle o);
     kw_bundle_timestamp := Some (RemoteRun.bundle_timestamp o);
     kw_start := RemoteRun.start o;
     kw_end := RemoteRun.end_ o;
     kw_output := "--";
     kw_print_algo := RemoteRun.print_algo o;
     kw_local_namespace := RemoteRun.local_namespace o;
     kw_environ := environ;
     kw_live := false;
     kw_exchange := RemoteRun.exchange_name o;
     kw_algo_namespace := RemoteRun.algo_namespace o;
     kw_quote_currency := RemoteRun.quote_currency o;
     kw_live_graph := false;
     kw_simulate_orders := true;
     kw_auth_aliases := None;
     kw_mail := RemoteRun.mail o |}.

(** [mail is None or not re.match(pattern, mail)] *)
Definition mail_rejected (mail : option string) : bool :=
  match mail with
  | None => true
  | Some m => negb (re_match mail_pattern m)
  end.

(** [remote_run]: a backtest for the given algorithm on the cloud. *)
Definition remote_run (o : RemoteRun.options) : Cmd string :=
  fail_if (Bool.eqb (is_not_None (RemoteRun.algotext o))
                    (is_not_None (RemoteRun.algofile o)))
    "must specify exactly one of '-f' / '--algofile' or '-t' / '--algotext'" ;;
  fail_if (is_None (RemoteRun.start o) && is_None (RemoteRun.end_ o))
    "must specify dates with '-s' / '--start' and '-e' / '--end' in backtest mode" ;;
  fail_if (is_None (RemoteRun.start o))
    "must specify a start date with '-s' / '--start' in backtest mode" ;;
  fail_if (is_None (RemoteRun.end_ o))
    "must specify an end date with '-e' / '--end' in backtest mode" ;;
  fail_if (is_None (RemoteRun.exchange_name o))
    "must specify an exchange name '-x'" ;;
  fail_if (is_None (RemoteRun.quote_currency o))
    "must specify a quote currency with '-c' in backtest mode" ;;
  fail_if (is_None (RemoteRun.capital_base o))
    "must specify a capital base with '--capital-base'" ;;
  fail_if (mail_rejected (RemoteRun.mail o))
    "must specify a valid email with '--mail'" ;;
  algo_id <- call (Call_remote_backtest (remote_kwargs o))
                  (remote_backtest (remote_kwargs o)) ;;
  perform (Print algo_id) ;;
  ret algo_id.

(** The branch of [remote_status] that writes the log. *)
Definition write_log (log_output : string) (log : option string) : Cmd unit :=
  if log_output =? "-" then perform (Echo stderr (py_str log))
  else if negb (log_output =? devnull) then
    call (Open_w log_output) (open_w log_output) ;;
    match log with
    | Some text =>
        call (File_write log_output text) (file_write log_output text)
    | None => raise "TypeError"
    end
  else ret tt.

(** The branch of [remote_status] that writes the perf data. *)
Definition write_perf (data_output : string) (perf : option DataFrame)
    : Cmd unit :=
  match perf with
  | Some p =>
      if data_output =? "-" then
        perform (Echo stdout
                   ("the performance data is:" ++ newline ++ frame_str p))
      else if negb (data_output =? devnull)
           then call (To_pickle p data_output) (to_pickle p data_output)
      else ret tt
  | None => ret tt
  end.

(** [remote_status]: the status of a running algorithm on the cloud. *)
Definition remote_status (o : RemoteStatus.options) : Cmd status_result :=
  match RemoteStatus.algo_id o with
  | None =>
      ctx_fail "must specify an id of your running algorithm with '--id'"
  | Some algo_id =>
      status_response <- call (Call_get_remote_status algo_id)
                              (get_remote_status algo_id) ;;
      match status_response with
      | Triple status perf log =>
          write_log (RemoteStatus.log_output o) log ;;
          write_perf (RemoteStatus.data_output o) perf ;;
          perform (Print status) ;;
          ret (Status_perf status perf)
      | Bare status =>
          perform (Print status) ;;
          ret (Status_only status)
      end
  end.

Definition ingest_call (o : Ingest.options) : ingest_kwargs :=
  {| ik_data_frequency := Ingest.data_frequency o;
     ik_include_symbols := Ingest.include_symbols o;
     ik_exclude_symbols := Ingest.exclude_symbols o;
     ik_start := Ingest.start o;
     ik_end := Ingest.end_ o;
     ik_show_progress := Ingest.show_progress o;
     ik_show_breakdown := Ingest.verbose o;
     ik_show_report := Ingest.validate o;
     ik_csv := Ingest.csv o |}.

(** [exchange_name in EXCHANGE_NAMES] *)
Definition known_exchange (name : string) : bool :=
  existsb (String.eqb name) EXCHANGE_NAMES.

Definition unsupported_exchange (name : string) : string :=
  "ingest-exchange does not support " ++ name
    ++ ", please choose exchange from: " ++ py_str_list EXCHANGE_NAMES.

(** [ingest_exchange]: ingest data for the given exchange. *)
Definition ingest_exchange (o : Ingest.options) : Cmd unit :=
  match Ingest.exchange_name o with
  | None => ctx_fail "must specify an exchange name '-x'"
  | Some exchange_name =>
      fail_if (py_not (Ingest.csv o) && negb (known_exchange exchange_name))
        (unsupported_exchange exchange_name) ;;
      perform (New_ExchangeBundle exchange_name) ;;
      perform (Echo stdout
                 ("Trying to ingest exchange bundle " ++ exchange_name ++ "...")) ;;
      perform (Call_ingest exchange_name (ingest_call o))
  end.

(** The commands as click calls them: [run], [live] and [remote_run]
    are decorated with [ipython_only] on the local-namespace option. *)
Variable __IPYTHON__ : bool.

Definition run_command : Run.options -> Cmd DataFrame :=
  ipython_only __IPYTHON__ Run.clear_local_namespace run.

Definition live_command : Live.options -> Cmd DataFrame :=
  ipython_only __IPYTHON__ Live.clear_local_namespace live.

Definition remote_run_command : RemoteRun.options -> Cmd string :=
  ipython_only __IPYTHON__ RemoteRun.clear_local_namespace remote_run.

End Commands.


(** ** Concrete invocations

    A POSIX null device, collaborators that answer with a fixed value, and
    option sets that satisfy every rule of their command, with the options
    the properties below vary left as arguments. *)

Definition posix_devnull : string := "/dev/null".

Definition sample_perf : DataFrame := {| frame_str := "perf" |}.

Definition sample_engine (kw : engine_kwargs) : answer DataFrame :=
  Gives sample_perf.

Definition sample_backend (kw : engine_kwargs) : answer string :=
  Gives "algo-1".

(** A file system on which the empty path and the root directory cannot
    be opened for writing, and any other write succeeds. *)
Definition sample_open (path : string) : answer unit :=
  if path =? "" then Throws "FileNotFoundError"
  else if path =? "/" then Throws "IsADirectoryError"
  else Gives tt.

Definition sample_write (path text : string) : answer unit := Gives tt.

Definition sample_pickle (perf : DataFrame) (path : string) : answer unit :=
  sample_open path.

Definition sample_exchanges : list string := ["bitfinex"; "bittrex"; "poloniex"].

Definition sample_run (file text : option string) (s e : option Timestamp)
    (out : string) (namespace : option string) (ns : option bool)
    : Run.options :=
  {| Run.algofile := file; Run.algotext := text; Run.define := [];
     Run.data_frequency := "daily"; Run.capital_base := Some 10000%float;
     Run.bundle := "poloniex"; Run.bundle_timestamp := 0%Z;
     Run.start := s; Run.end_ := e; Run.output := out;
     Run.print_algo := false; Run.local_namespace := ns;
     Run.exchange_name := Some "bitfinex"; Run.algo_namespace := namespace;
     Run.quote_currency := Some "usd" |}.

Definition sample_live (file text : option string) (out : string)
    (namespace : option string) (ns : option bool) : Live.options :=
  {| Live.algofile := file; Live.capital_base := Some 10000%float;
     Live.algotext := text; Live.define := []; Live.output := out;
     Live.print_algo := false; Live.local_namespace := ns;
     Live.exchange_name := Some "bitfinex"; Live.algo_namespace := namespace;
     Live.quote_currency := Some "usd"; Live.start := None;
     Live.end_ := None; Live.live_graph := false;
     Live.auth_aliases := None; Live.simulate_orders := true |}.

Definition sample_remote (file text : option string) (s e : option Timestamp)
    (address : option string) (ns : option bool) : RemoteRun.options :=
  {| RemoteRun.algofile := file; RemoteRun.algotext := text;
     RemoteRun.define := []; RemoteRun.data_frequency := "daily";
     RemoteRun.capital_base := Some 10000%float;
     RemoteRun.bundle := "poloniex"; RemoteRun.bundle_timestamp := 0%Z;
     RemoteRun.start := s; RemoteRun.end_ := e; RemoteRun.mail := address;
     RemoteRun.print_algo := false; RemoteRun.local_namespace := ns;
     RemoteRun.exchange_name := Some "bitfinex";
     RemoteRun.algo_namespace := None;
     RemoteRun.quote_currency := Some "usd" |}.

Definition sample_status (data_out log_out : string) : RemoteStatus.options :=
  {| RemoteStatus.algo_id := Some "algo-1";
     RemoteStatus.data_output := data_out;
     RemoteStatus.log_output := log_out |}.

Definition sample_ingest (name : string) (path : option string)
    (s e : option Timestamp) (incl excl : option string) : Ingest.options :=
  {| Ingest.exchange_name := Some name; Ingest.data_frequency := "daily";
     Ingest.start := s; Ingest.end_ := e; Ingest.include_symbols := incl;
     Ingest.exclude_symbols := excl; Ingest.csv := path;
     Ingest.show_progress := true; Ingest.verbose := false;
     Ingest.validate := false |}.

(** * Properties *)

(** ** Trace and result of a sequence *)

Lemma result_bind {A B : Type} (m : Cmd A) (k : A -> Cmd B) :
  result (bind m k) =
  match result m with
  | Returned v => result (k v)
  | UsageError msg => UsageError msg
  | Raised exn => Raised exn
  end.
Proof.
  unfold bind, result. now destruct (snd m).
Qed.

Lemma trace_bind {A B : Type} (m : Cmd A) (k : A -> Cmd B) :
  trace (bind m k) =
  trace m ++ match result m with
             | Returned v => trace (k v)
             | _ => []
             end.
Proof.
  unfold bind, trace, result.
  destruct (snd m); simpl; now rewrite ?app_nil_r.
Qed.

Lemma result_fail_if {B : Type} (cond : bool) (msg : string) (k : Cmd B) :
  result (fail_if cond msg ;; k) = if cond then UsageError msg else result k.
Proof.
  rewrite result_bind. now destruct cond.
Qed.

Lemma trace_fail_if {B : Type} (cond : bool) (msg : string) (k : Cmd B) :
  trace (fail_if cond msg ;; k) = if cond then [] else trace k.
Proof.
  rewrite trace_bind. now destruct cond.
Qed.

Lemma result_perform {B : Type} (e : effect) (k : Cmd B) :
  result (perform e ;; k) = result k.
Proof.
  now rewrite result_bind.
Qed.

Lemma trace_perform {B : Type} (e : effect) (k : Cmd B) :
  trace (perform e ;; k) = e :: trace k.
Proof.
  now rewrite trace_bind.
Qed.

Lemma result_call {A B : Type} (e : effect) (a : answer A) (k : A -> Cmd B) :
  result (x <- call e a ;; k x) =
  match a with
  | Gives v => result (k v)
  | Throws exn => Raised exn
  end.
Proof.
  unfold call. rewrite !result_bind. now destruct a.
Qed.

Lemma trace_call {A B : Type} (e : effect) (a : answer A) (k : A -> Cmd B) :
  trace (x <- call e a ;; k x) =
  e :: match a with
       | Gives v => trace (k v)
       | Throws _ => []
       end.
Proof.
  unfold call. rewrite !trace_bind, !result_bind. now destruct a.
Qed.

Lemma result_call_end {A : Type} (e : effect) (a : answer A) :
  result (call e a) =
  match a with
  | Gives v => Returned v
  | Throws exn => Raised exn
  end.
Proof.
  unfold call. rewrite result_bind. now destruct a.
Qed.

Lemma trace_call_end {A : Type} (e : effect) (a : answer A) :
  trace (call e a) = [e].
Proof.
  unfold call. rewrite trace_bind. now destruct a.
Qed.

(** A decorated command is the command on the options the wrapper
    passes on. *)
Lemma ipython_only_eq {O A : Type} (b : bool) (clear : O -> O)
    (f : O -> Cmd A) (o : O) :
  ipython_only b clear f o = f (if b then o else clear o).
Proof.
  now destruct b.
Qed.

(** Unfold a command and push [trace] and [result] through its
    sequence of checks and effects. *)
Ltac command :=
  unfold verdict, exit_code, run_command, live_command, remote_run_command,
    run, live, remote_run, remote_status, ingest_exchange;
  rewrite ?ipython_only_eq;
  repeat (progress (rewrite ?result_fail_if, ?trace_fail_if,
                      ?result_perform, ?trace_perform,
                      ?result_call, ?trace_call)).

(** Case analysis on an option of the command, closing what the check
    on it decides. *)
Ltac given x tac := destruct x; simpl in *; try solve [tac].

(** Case analysis on the comparisons of a destination token. *)
Ltac tokens :=
  repeat match goal with
    | |- context [String.eqb ?a ?b] =>
        destruct (String.eqb a b) eqn:?; simpl
    end.

(** Case analysis on the answers of the file system. *)
Ltac answers :=
  repeat match goal with
    | |- context [match ?a with Gives _ => _ | Throws _ => _ end] =>
        destruct a eqn:?; simpl
    end.

(** The end of a command, after the answer of the collaborator. *)
Ltac tail :=
  repeat (progress (rewrite ?result_bind, ?trace_bind; simpl)); tokens;
  repeat (progress (rewrite ?result_call_end, ?trace_call_end; simpl));
  answers.

Ltac options o := destruct o; simpl in *.

Ltac absurd_source H :=
  destruct H as [[? ?] | [? ?]]; congruence.

(** ** The derivative matcher computes the denotation *)

Section RegexFacts.

Lemma nullable_Matches_nil (r : regex) :
  nullable r = true -> Matches r [].
Proof.
  induction r as [ | | c | c | r1 IH1 r2 IH2 | r1 IH1 r2 IH2 | r1 IH1];
    simpl; intros H; try discriminate.
  - constructor.
  - apply andb_true_iff in H as [H1 H2].
    change (@nil ascii) with ((@nil ascii) ++ []).
    constructor; auto.
  - apply orb_true_iff in H as [H | H];
      [apply M_AltL | apply M_AltR]; auto.
  - constructor.
Qed.

Lemma Matches_nil_nullable (r : regex) (s : list ascii) :
  Matches r s -> s = [] -> nullable r = true.
Proof.
  induction 1 as [ | c | c d Hcd | r1 r2 s1 s2 _ IH1 _ IH2
                 | r1 r2 s _ IH | r1 r2 s _ IH | r | r s1 s2 _ IH1 _ IH2];
    simpl; intros E; try discriminate; auto.
  - apply app_eq_nil in E as [E1 E2]. now rewrite IH1, IH2.
  - now rewrite IH.
  - rewrite IH by assumption. apply orb_true_r.
Qed.

Lemma deriv_sound (c : ascii) (r : regex) :
  forall s, Matches (deriv c r) s -> Matches r (c :: s).
Proof.
  induction r as [ | | d | d | r1 IH1 r2 IH2 | r1 IH1 r2 IH2 | r1 IH1];
    simpl; intros s H.
  - inversion H.
  - inversion H.
  - destruct (Ascii.eqb c d) eqn:E; inversion H; subst.
    apply Ascii.eqb_eq in E. subst. constructor.
  - destruct (Ascii.eqb c d) eqn:E; inversion H; subst.
    apply Ascii.eqb_neq in E. now constructor.
  - destruct (nullable r1) eqn:N.
    + inversion H as [ | | | | ? ? ? HL | ? ? ? HR | | ]; subst.
      * inversion HL as [ | | | ? ? s1 s2 H1 H2 | | | | ]; subst.
        change (c :: s1 ++ s2) with ((c :: s1) ++ s2).
        constructor; auto.
      * change (c :: s) with ([] ++ c :: s).
        constructor; auto using nullable_Matches_nil.
    + inversion H as [ | | | ? ? s1 s2 H1 H2 | | | | ]; subst.
      change (c :: s1 ++ s2) with ((c :: s1) ++ s2).
      constructor; auto.
  - inversion H; subst; [apply M_AltL | apply M_AltR]; auto.
  - inversion H as [ | | | ? ? s1 s2 H1 H2 | | | | ]; subst.
    change (c :: s1 ++ s2) with ((c :: s1) ++ s2).
    constructor; auto.
Qed.

Lemma deriv_complete (r : regex) (t : list ascii) :
  Matches r t -> forall c s, t = c :: s -> Matches (deriv c r) s.
Proof.
  induction 1 as [ | c0 | c0 d Hcd | r1 r2 s1 s2 H1 IH1 H2 IH2
                 | r1 r2 s0 _ IH | r1 r2 s0 _ IH | r | r s1 s2 H1 IH1 H2 IH2];
    intros c s E; simpl.
  - discriminate.
  - injection E as -> <-. rewrite Ascii.eqb_refl. constructor.
  - injection E as -> <-.
    apply Ascii.eqb_neq in Hcd. rewrite Hcd. constructor.
  - destruct s1 as [ | a s1'].
    + simpl in E. rewrite (Matches_nil_nullable H1 eq_refl).
      apply M_AltR. now apply IH2.
    + simpl in E. injection E as -> <-.
      specialize (IH1 c s1' eq_refl).
      destruct (nullable r1).
      * apply M_AltL. now constructor.
      * now constructor.
  - apply M_AltL. now apply IH.
  - apply M_AltR. now apply IH.
  - discriminate.
  - destruct s1 as [ | a s1'].
    + simpl in E. now apply IH2.
    + simpl in E. injection E as -> <-.
      constructor; auto.
Qed.

(** [re.match] succeeds exactly when a prefix of the text is in the
    denotation of the pattern. *)
Lemma match_prefix_spec (s : list ascii) :
  forall r,
    match_prefix r s = true <->
    exists p q, s = p ++ q /\ Matches r p.
Proof.
  induction s as [ | c s IH]; intros r; simpl.
  - rewrite orb_false_r. split.
    + intros N. exists [], []. auto using nullable_Matches_nil.
    + intros (p & q & E & M). symmetry in E.
      apply app_eq_nil in E as [-> _].
      eapply Matches_nil_nullable; eauto.
  - rewrite orb_true_iff, IH. split.
    + intros [N | (p & q & E & M)].
      * exists [], (c :: s). auto using nullable_Matches_nil.
      * exists (c :: p), q. subst. auto using deriv_sound.
    + intros (p & q & E & M). destruct p as [ | a p].
      * left. eapply Matches_nil_nullable; eauto.
      * right. simpl in E. injection E as <- ->.
        exists p, q. split; [reflexivity | ].
        eapply deriv_complete; eauto.
Qed.

(** The denotation of [[^a]*] and of [[^a]+]. *)
Lemma Matches_star_not (a : ascii) (s : list ascii) :
  Matches (Star (NotLit a)) s <-> ~ In a s.
Proof.
  split.
  - remember (Star (NotLit a)) as r eqn:R. intros M.
    induction M as [ | | | | | | r0 | r0 s1 s2 M1 _ M2 IH2];
      try discriminate.
    + intros [].
    + injection R as ->. specialize (IH2 eq_refl).
      inversion M1; subst. simpl. intros [E | I]; [ | tauto].
      congruence.
  - induction s as [ | c s IH]; intros N.
    + constructor.
    + change (c :: s) with ([c] ++ s). constructor.
      * constructor. intros ->. apply N. now left.
      * apply IH. intros I. apply N. now right.
Qed.

Lemma Matches_plus_not (a : ascii) (s : list ascii) :
  Matches (Plus (NotLit a)) s <-> s <> [] /\ ~ In a s.
Proof.
  unfold Plus. split.
  - intros M. inversion M as [ | | | ? ? s1 s2 M1 M2 | | | | ]; subst.
    inversion M1; subst. apply Matches_star_not in M2.
    split; [discriminate | ].
    simpl. intros [E | I]; [congruence | tauto].
  - intros [NE N]. destruct s as [ | c s]; [congruence | ].
    change (c :: s) with ([c] ++ s). constructor.
    + constructor. intros ->. apply N. now left.
    + apply Matches_star_not. intros I. apply N. now right.
Qed.

Lemma Matches_lit (c : ascii) (s : list ascii) :
  Matches (Lit c) s <-> s = [c].
Proof.
  split.
  - intros M. now inversion M.
  - intros ->. constructor.
Qed.

Lemma Matches_cat (r1 r2 : regex) (s : list ascii) :
  Matches (Cat r1 r2) s <->
  exists s1 s2, s = s1 ++ s2 /\ Matches r1 s1 /\ Matches r2 s2.
Proof.
  split.
  - intros M. inversion M; subst. eauto.
  - intros (s1 & s2 & -> & M1 & M2). now constructor.
Qed.

(** The texts the mail pattern denotes. *)
Lemma Matches_mail_pattern (s : list ascii) :
  Matches mail_pattern s <->
  exists x y z,
    s = x ++ "@"%char :: y ++ "."%char :: z
    /\ (x <> [] /\ no_at x) /\ (y <> [] /\ no_at y) /\ (z <> [] /\ no_at z).
Proof.
  unfold mail_pattern, no_at. split.
  - intros M.
    apply Matches_cat in M as (x & s1 & -> & Mx & M).
    apply Matches_cat in M as (a & s2 & -> & Ma & M).
    apply Matches_cat in M as (y & s3 & -> & My & M).
    apply Matches_cat in M as (d & z & -> & Md & Mz).
    apply Matches_lit in Ma as ->. apply Matches_lit in Md as ->.
    apply Matches_plus_not in Mx, My, Mz.
    exists x, y, z. simpl. auto.
  - intros (x & y & z & -> & Hx & Hy & Hz).
    apply Matches_plus_not in Hx, Hy, Hz.
    apply Matches_cat. exists x, ("@"%char :: y ++ "."%char :: z).
    repeat split; trivial.
    apply Matches_cat. exists ["@"%char], (y ++ "."%char :: z).
    repeat split; [constructor | ].
    apply Matches_cat. exists y, ("."%char :: z).
    repeat split; trivial.
    apply Matches_cat. exists ["."%char], z.
    repeat split; [constructor | trivial].
Qed.

(** [re.match] on the mail pattern decides the shape. *)
Lemma re_match_mail_shape (mail : string) :
  re_match mail_pattern mail = true <-> mail_shape mail.
Proof.
  unfold re_match, mail_shape. rewrite match_prefix_spec. split.
  - intros (p & q & E & M).
    apply Matches_mail_pattern in M
      as (x & y & z & -> & [Hx Nx] & [Hy Ny] & [Hz Nz]).
    destruct z as [ | c z]; [congruence | ].
    exists x, y, c, (z ++ q). rewrite E.
    repeat split; trivial.
    + rewrite <- app_assoc. simpl. rewrite <- app_assoc. reflexivity.
    + intros ->. apply Nz. now left.
  - intros (x & y & c & rest & E & Hx & Hy & Nx & Ny & Hc).
    exists (x ++ "@"%char :: y ++ "."%char :: [c]), rest. split.
    + rewrite E, <- app_assoc. simpl. rewrite <- app_assoc. reflexivity.
    + apply Matches_mail_pattern. exists x, y, [c].
      repeat split; trivial; try discriminate.
      intros [E' | []]. congruence.
Qed.

End RegexFacts.

(** ** Validation of the commands *)

(** C1.  For [run], [live] and [remote-run], as click calls them: when
    the algorithm file and the algorithm text are both given, or neither
    is, the command fails with the diagnostic of the first check, the
    process exits with a status other than 0, and no effect was
    performed: in particular neither [_run] nor [remote_backtest] was
    called. *)
Theorem source_exclusivity
    (devnull : string) (environ : environment)
    (_run : engine_kwargs -> answer DataFrame)
    (to_pickle : DataFrame -> string -> answer unit)
    (remote_backtest : engine_kwargs -> answer string)
    (__IPYTHON__ : bool) :
  (forall o : Run.options,
      (Run.algofile o <> None /\ Run.algotext o <> None)
      \/ (Run.algofile o = None /\ Run.algotext o = None) ->
      let m := run_command devnull environ _run to_pickle __IPYTHON__ o in
      verdict m = Some "must specify exactly one of '-f' / '--algofile' or '-t' / '--algotext'"
      /\ exit_code m <> 0%Z /\ trace m = [] /\ engine_calls (trace m) = [])
  /\ (forall o : Live.options,
      (Live.algofile o <> None /\ Live.algotext o <> None)
      \/ (Live.algofile o = None /\ Live.algotext o = None) ->
      let m := live_command devnull environ _run to_pickle __IPYTHON__ o in
      verdict m = Some "must specify exactly one of '-f' / '--algofile' or '-t' / '--algotext'"
      /\ exit_code m <> 0%Z /\ trace m = [] /\ engine_calls (trace m) = [])
  /\ (forall o : RemoteRun.options,
      (RemoteRun.algofile o <> None /\ RemoteRun.algotext o <> None)
      \/ (RemoteRun.algofile o = None /\ RemoteRun.algotext o = None) ->
      let m := remote_run_command environ remote_backtest __IPYTHON__ o in
      verdict m = Some "must specify exactly one of '-f' / '--algofile' or '-t' / '--algotext'"
      /\ exit_code m <> 0%Z /\ trace m = [] /\ engine_calls (trace m) = []).
Proof.
  repeat apply conj; intros o H m; subst m; command;
    destruct __IPYTHON__; options o;
    destruct algofile, algotext; try absurd_source H; simpl;
    (repeat apply conj; [reflexivity | discriminate | reflexivity | reflexivity]).
Qed.

Lemma source_exclusivity_witness :
  let m := run_command posix_devnull [] sample_engine sample_pickle false
             (sample_run (Some "algo.py") (Some "pass") (Some 0%Z) (Some 1%Z)
                         "-" None None) in
  exit_code m <> 0%Z /\ trace m = [].
Proof.
  pose proof (proj1 (source_exclusivity posix_devnull [] sample_engine sample_pickle
                       sample_backend false)
                (sample_run (Some "algo.py") (Some "pass") (Some 0%Z) (Some 1%Z)
                            "-" None None)) as H.
  simpl in H. destruct H as (_ & E & T & _).
  - left. split; discriminate.
  - split; assumption.
Defined.

(** C5.  [run] and [remote-run] with exactly one algorithm source: a
    start date without an end date is rejected with the diagnostic that
    names the end date, an end date without a start date with the one
    that names the start date, and neither with the one joint diagnostic
    that names both, which is the first date check.  Nothing was
    performed before the rejection. *)
Theorem date_rules
    (devnull : string) (environ : environment)
    (_run : engine_kwargs -> answer DataFrame)
    (to_pickle : DataFrame -> string -> answer unit)
    (remote_backtest : engine_kwargs -> answer string)
    (__IPYTHON__ : bool) :
  (forall o : Run.options,
      (Run.algofile o <> None /\ Run.algotext o = None)
      \/ (Run.algofile o = None /\ Run.algotext o <> None) ->
      let m := run_command devnull environ _run to_pickle __IPYTHON__ o in
      (Run.start o <> None -> Run.end_ o = None ->
       verdict m = Some "must specify an end date with '-e' / '--end' in backtest mode"
       /\ trace m = [])
      /\ (Run.start o = None -> Run.end_ o <> None ->
       verdict m = Some "must specify a start date with '-s' / '--start' in backtest mode"
       /\ trace m = [])
      /\ (Run.start o = None -> Run.end_ o = None ->
       verdict m = Some "must specify dates with '-s' / '--start' and '-e' / '--end' in backtest mode"
       /\ trace m = []))
  /\ (forall o : RemoteRun.options,
      (RemoteRun.algofile o <> None /\ RemoteRun.algotext o = None)
      \/ (RemoteRun.algofile o = None /\ RemoteRun.algotext o <> None) ->
      let m := remote_run_command environ remote_backtest __IPYTHON__ o in
      (RemoteRun.start o <> None -> RemoteRun.end_ o = None ->
       verdict m = Some "must specify an end date with '-e' / '--end' in backtest mode"
       /\ trace m = [])
      /\ (RemoteRun.start o = None -> RemoteRun.end_ o <> None ->
       verdict m = Some "must specify a start date with '-s' / '--start' in backtest mode"
       /\ trace m = [])
      /\ (RemoteRun.start o = None -> RemoteRun.end_ o = None ->
       verdict m = Some "must specify dates with '-s' / '--start' and '-e' / '--end' in backtest mode"
       /\ trace m = [])).
Proof.
  split; intros o H m; subst m; command;
    destruct __IPYTHON__; options o;
    destruct algofile, algotext; try absurd_source H; simpl;
    (repeat apply conj; intros;
     destruct start, end_; try congruence; split; reflexivity).
Qed.

Lemma date_rules_witness :
  verdict (run_command posix_devnull [] sample_engine sample_pickle false
             (sample_run None (Some "pass") (Some 0%Z) None "-" None None))
  = Some "must specify an end date with '-e' / '--end' in backtest mode".
Proof.
  pose proof (proj1 (date_rules posix_devnull [] sample_engine sample_pickle
                       sample_backend false)
                (sample_run None (Some "pass") (Some 0%Z) None "-" None None))
    as H.
  simpl in H. destruct H as ([E _] & _).
  - right. split; [reflexivity | discriminate].
  - discriminate.
  - reflexivity.
  - exact E.
Defined.

(** C8.  [live] is rejected, before anything is performed, whenever the
    exchange name, the algorithm namespace, the quote currency or the
    capital base is absent; with one algorithm source and an exchange
    name the absent namespace is what the diagnostic names.  [run] has no
    such rule: with its own rules satisfied and no namespace, it is
    accepted and the engine is called. *)
Theorem namespace_rule
    (devnull : string) (environ : environment)
    (_run : engine_kwargs -> answer DataFrame)
    (to_pickle : DataFrame -> string -> answer unit)
    (__IPYTHON__ : bool) :
  (forall o : Live.options,
      Live.exchange_name o = None \/ Live.algo_namespace o = None
      \/ Live.quote_currency o = None \/ Live.capital_base o = None ->
      let m := live_command devnull environ _run to_pickle __IPYTHON__ o in
      (exists msg, verdict m = Some msg)
      /\ exit_code m <> 0%Z /\ trace m = [])
  /\ (forall o : Live.options,
      (Live.algofile o <> None /\ Live.algotext o = None)
      \/ (Live.algofile o = None /\ Live.algotext o <> None) ->
      Live.exchange_name o <> None -> Live.algo_namespace o = None ->
      verdict (live_command devnull environ _run to_pickle __IPYTHON__ o)
      = Some "must specify an algorithm name '-n' in live execution mode")
  /\ (forall o : Run.options,
      (Run.algofile o <> None /\ Run.algotext o = None)
      \/ (Run.algofile o = None /\ Run.algotext o <> None) ->
      Run.start o <> None -> Run.end_ o <> None ->
      Run.exchange_name o <> None -> Run.quote_currency o <> None ->
      Run.capital_base o <> None ->
      Run.algo_namespace o = None ->
      let m := run_command devnull environ _run to_pickle __IPYTHON__ o in
      verdict m = None
      /\ exists kw, engine_calls (trace m) = [Call_run kw]
                    /\ kw_algo_namespace kw = None).
Proof.
  repeat apply conj.
  - intros o H m. subst m. command.
    destruct __IPYTHON__; options o;
      given algofile idtac; given algotext idtac;
      try (split; [eexists; reflexivity | split; [discriminate | reflexivity]]);
      given exchange_name idtac;
      try (split; [eexists; reflexivity | split; [discriminate | reflexivity]]);
      given algo_namespace idtac;
      try (split; [eexists; reflexivity | split; [discriminate | reflexivity]]);
      given quote_currency idtac;
      try (split; [eexists; reflexivity | split; [discriminate | reflexivity]]);
      given capital_base idtac;
      try (split; [eexists; reflexivity | split; [discriminate | reflexivity]]);
      exfalso; intuition congruence.
  - intros o H Hx Hn. command.
    destruct __IPYTHON__; options o;
      destruct algofile, algotext; try absurd_source H;
      destruct exchange_name, algo_namespace; try congruence; reflexivity.
  - intros o H Hs He Hx Hq Hc Hn m. subst m. command.
    destruct __IPYTHON__; options o;
      destruct algofile, algotext; try absurd_source H;
      destruct start, end_, exchange_name, quote_currency, capital_base;
      try congruence; subst algo_namespace; simpl;
      match goal with
      | |- context [_run ?kw] => destruct (_run kw)
      end; tail; (split; [reflexivity | eexists; split; reflexivity]).
Qed.

Lemma namespace_rule_witness :
  verdict (run_command posix_devnull [] sample_engine sample_pickle false
             (sample_run None (Some "pass") (Some 0%Z) (Some 1%Z) "-" None None))
  = None.
Proof.
  pose proof (proj2 (proj2 (namespace_rule posix_devnull [] sample_engine sample_pickle false))
                (sample_run None (Some "pass") (Some 0%Z) (Some 1%Z) "-" None None))
    as H.
  simpl in H. destruct H as [E _].
  - right. split; [reflexivity | discriminate].
  - discriminate.
  - discriminate.
  - discriminate.
  - discriminate.
  - discriminate.
  - reflexivity.
  - exact E.
Defined.

(** ** The mail option of [remote-run] *)

Lemma mail_rejected_spec (address : option string) :
  mail_rejected address = true <->
  address = None \/ exists a, address = Some a /\ ~ mail_shape a.
Proof.
  unfold mail_rejected. destruct address as [a | ].
  - rewrite negb_true_iff, <- not_true_iff_false, re_match_mail_shape.
    split.
    + intros N. right. exists a. auto.
    + intros [E | (b & E & N)]; [discriminate | ].
      now injection E as ->.
  - split; auto.
Qed.

(** The mail check of [remote-run] as the code has it, with every other
    rule satisfied: the command is rejected, before anything is
    performed, when the mail option is absent or no beginning of its
    value has the shape [mail_shape]; otherwise the command is accepted
    and the submission is the one engine call.  The check of the source,
    [mail_rejected], holds exactly in the first case.  The address
    not-an-email is rejected and ops@example.com is not. *)
Lemma mail_rule
    (environ : environment)
    (remote_backtest : engine_kwargs -> answer string)
    (__IPYTHON__ : bool) (o : RemoteRun.options) :
  (RemoteRun.algofile o <> None /\ RemoteRun.algotext o = None)
  \/ (RemoteRun.algofile o = None /\ RemoteRun.algotext o <> None) ->
  RemoteRun.start o <> None -> RemoteRun.end_ o <> None ->
  RemoteRun.exchange_name o <> None -> RemoteRun.quote_currency o <> None ->
  RemoteRun.capital_base o <> None ->
  let m := remote_run_command environ remote_backtest __IPYTHON__ o in
  (RemoteRun.mail o = None
   \/ (exists a, RemoteRun.mail o = Some a /\ ~ mail_shape a) ->
   verdict m = Some "must specify a valid email with '--mail'"
   /\ exit_code m <> 0%Z /\ trace m = [])
  /\ ((exists a, RemoteRun.mail o = Some a /\ mail_shape a) ->
      verdict m = None
      /\ exists kw, engine_calls (trace m) = [Call_remote_backtest kw]
                    /\ kw_mail kw = RemoteRun.mail o)
  /\ (mail_rejected (RemoteRun.mail o) = true <->
      RemoteRun.mail o = None
      \/ exists a, RemoteRun.mail o = Some a /\ ~ mail_shape a)
  /\ mail_rejected (Some "not-an-email") = true
  /\ mail_rejected (Some "ops@example.com") = false.
Proof.
  intros H Hs He Hx Hq Hc m.
  split; [ | split; [ | split; [apply mail_rejected_spec | split; reflexivity]]].
  - intros R. apply mail_rejected_spec in R. subst m. command.
    destruct __IPYTHON__; options o;
      destruct algofile, algotext; try absurd_source H;
      destruct start, end_, exchange_name, quote_currency, capital_base;
      try congruence; simpl; rewrite R;
      (split; [reflexivity | split; [discriminate | reflexivity]]).
  - intros (a & E & S). apply re_match_mail_shape in S.
    assert (R : mail_rejected (RemoteRun.mail o) = false)
      by (rewrite E; simpl; now rewrite S).
    subst m. command.
    destruct __IPYTHON__; options o;
      destruct algofile, algotext; try absurd_source H;
      destruct start, end_, exchange_name, quote_currency, capital_base;
      try congruence; simpl; rewrite R;
      match goal with
      | |- context [remote_backtest ?kw] => destruct (remote_backtest kw)
      end; tail; (split; [reflexivity | eexists; split; reflexivity]).
Qed.

(** An address of the shape local-part@domain.tld holds exactly one
    [@], and passes the check. *)
Lemma address_shape_one_at (mail : string) :
  address_shape mail ->
  count_occ ascii_dec (list_ascii_of_string mail) "@"%char = 1.
Proof.
  intros (x & y & z & E & _ & _ & _ & Nx & Ny & Nz).
  rewrite E, count_occ_app. simpl.
  destruct (ascii_dec "@" "@") as [_ | N]; [ | congruence].
  rewrite count_occ_app. simpl.
  destruct (ascii_dec "." "@") as [D | _]; [discriminate D | ].
  apply (count_occ_not_In ascii_dec) in Nx, Ny, Nz.
  rewrite Nx, Ny, Nz. reflexivity.
Qed.

Lemma address_shape_passes (mail : string) :
  address_shape mail -> mail_rejected (Some mail) = false.
Proof.
  intros (x & y & z & E & Hx & Hy & Hz & Nx & Ny & Nz).
  unfold mail_rejected. rewrite negb_false_iff, re_match_mail_shape.
  destruct z as [ | c z]; [congruence | ].
  exists x, y, c, z. repeat split; trivial.
  intros ->. apply Nz. now left.
Qed.

(** C6.  The check accepts an address that does not have the shape
    local-part@domain.tld: the pattern is applied with [re.match], which
    does not anchor the end.  The address a@b.c@d, with its two [@], does
    not have the shape, and [remote-run] with this address and every
    other rule satisfied is accepted and submits the job. *)
Theorem second_at_passes_mail_check :
  ~ address_shape "a@b.c@d"
  /\ let o := sample_remote None (Some "pass") (Some 0%Z) (Some 1%Z)
                            (Some "a@b.c@d") None in
     let m := remote_run_command [] sample_backend false o in
     verdict m = None
     /\ exit_code m = 0%Z
     /\ trace m = [Call_remote_backtest (remote_kwargs [] o); Print "algo-1"].
Proof.
  split.
  - intros S. apply address_shape_one_at in S. discriminate S.
  - repeat split.
Qed.

(** ** The poll of [remote-status] *)

(** C7.  When the poll answers with a bare status, [remote-status] prints
    that status and returns it; after the poll itself nothing else is
    performed, whatever the two destinations are: nothing is echoed and
    no file is opened or written. *)
Theorem bare_status_only
    (devnull : string)
    (get_remote_status : string -> answer status_response)
    (open_w : string -> answer unit)
    (file_write : string -> string -> answer unit)
    (to_pickle : DataFrame -> string -> answer unit)
    (o : RemoteStatus.options) (algo_id status : string) :
  RemoteStatus.algo_id o = Some algo_id ->
  get_remote_status algo_id = Gives (Bare status) ->
  let m := remote_status devnull get_remote_status open_w file_write to_pickle o in
  trace m = [Call_get_remote_status algo_id; Print status]
  /\ file_writes (trace m) = []
  /\ result m = Returned (Status_only status).
Proof.
  intros Hid Hpoll m. subst m. options o. subst algo_id0.
  unfold remote_status, call.
  repeat (progress (rewrite ?result_bind, ?trace_bind, ?Hpoll; simpl)).
  auto.
Qed.

Lemma bare_status_only_witness :
  trace (remote_status posix_devnull (fun _ => Gives (Bare "running"))
           sample_open sample_write sample_pickle
           (sample_status "perf.pickle" "algo.log"))
  = [Call_get_remote_status "algo-1"; Print "running"].
Proof.
  apply (@bare_status_only posix_devnull (fun _ => Gives (Bare "running"))
           sample_open sample_write sample_pickle
           (sample_status "perf.pickle" "algo.log") "algo-1" "running");
    reflexivity.
Defined.

(** What the log branch and the perf branch of [remote_status] perform
    for a log text and for a perf value, by the answers of the file
    system. *)
Lemma write_log_present
    (devnull : string) (open_w : string -> answer unit)
    (file_write : string -> string -> answer unit)
    (log_output text : string) :
  write_log devnull open_w file_write log_output (Some text) =
  if log_output =? "-" then ([Echo stderr text], Returned tt)
  else if log_output =? devnull then ([], Returned tt)
  else
    match open_w log_output with
    | Throws exn => ([Open_w log_output], Raised exn)
    | Gives _ =>
        match file_write log_output text with
        | Gives _ =>
            ([Open_w log_output; File_write log_output text], Returned tt)
        | Throws exn =>
            ([Open_w log_output; File_write log_output text], Raised exn)
        end
    end.
Proof.
  unfold write_log, call, bind. simpl.
  destruct (log_output =? "-"); [reflexivity | ].
  destruct (log_output =? devnull); [reflexivity | ]. simpl.
  destruct (open_w log_output) as [[] | exn]; [ | reflexivity]. simpl.
  destruct (file_write log_output text) as [[] | exn]; reflexivity.
Qed.

Lemma write_perf_spec
    (devnull : string) (to_pickle : DataFrame -> string -> answer unit)
    (data_output : string) (perf : option DataFrame) :
  write_perf devnull to_pickle data_output perf =
  match perf with
  | Some p =>
      if data_output =? "-" then
        ([Echo stdout ("the performance data is:" ++ newline ++ frame_str p)],
         Returned tt)
      else if data_output =? devnull then ([], Returned tt)
      else
        match to_pickle p data_output with
        | Gives _ => ([To_pickle p data_output], Returned tt)
        | Throws exn => ([To_pickle p data_output], Raised exn)
        end
  | None => ([], Returned tt)
  end.
Proof.
  unfold write_perf, call, bind. simpl.
  destruct perf as [p | ]; [ | reflexivity].
  destruct (data_output =? "-"); [reflexivity | ].
  destruct (data_output =? devnull); [reflexivity | ]. simpl.
  destruct (to_pickle p data_output) as [[] | exn]; reflexivity.
Qed.

(** Unfold [remote_status] on a triple down to the two write branches. *)
Ltac status_triple Hpoll :=
  unfold remote_status, call;
  repeat (progress (rewrite ?result_bind, ?trace_bind, ?Hpoll,
                      ?write_log_present, ?write_perf_spec; simpl)).

(** C2, as the code has it.  When the poll answers with the triple
    (status, perf, log) and the log is a text, the writes come in the
    order log, perf, status, and the first one that raises ends the
    command.  While every write succeeds: the log text goes to the log
    destination (the stream [stderr] for the token [-], nothing for the
    null device, the file of that name otherwise), then the perf data, if
    present, goes to the data destination ([stdout] for the token [-],
    after the label and a line break; nothing for the null device; a
    pickle at that path otherwise), and the status is printed last.
    When opening or writing the log file raises, neither the perf nor
    the status is output; when pickling the perf raises, the status is
    not printed. *)
Theorem triple_status_order
    (devnull : string)
    (get_remote_status : string -> answer status_response)
    (open_w : string -> answer unit)
    (file_write : string -> string -> answer unit)
    (to_pickle : DataFrame -> string -> answer unit)
    (o : RemoteStatus.options) (algo_id status text : string)
    (perf : option DataFrame) :
  RemoteStatus.algo_id o = Some algo_id ->
  get_remote_status algo_id = Gives (Triple status perf (Some text)) ->
  let m := remote_status devnull get_remote_status open_w file_write
             to_pickle o in
  let log_output := RemoteStatus.log_output o in
  let data_output := RemoteStatus.data_output o in
  let log_effects :=
    if log_output =? "-" then [Echo stderr text]
    else if log_output =? devnull then []
    else [Open_w log_output; File_write log_output text] in
  let log_written :=
    log_output = "-" \/ log_output = devnull
    \/ (open_w log_output = Gives tt
        /\ file_write log_output text = Gives tt) in
  (log_written ->
   (forall p, perf = Some p ->
      data_output = "-" \/ data_output = devnull
      \/ to_pickle p data_output = Gives tt) ->
   trace m =
     [Call_get_remote_status algo_id]
     ++ log_effects
     ++ match perf with
        | Some p =>
            if data_output =? "-" then
              [Echo stdout
                 ("the performance data is:" ++ newline ++ frame_str p)]
            else if data_output =? devnull then []
            else [To_pickle p data_output]
        | None => []
        end
     ++ [Print status]
   /\ result m = Returned (Status_perf status perf))
  /\ (log_output <> "-" -> log_output <> devnull ->
      forall exn,
        (open_w log_output = Throws exn ->
         trace m = [Call_get_remote_status algo_id; Open_w log_output]
         /\ result m = Raised exn)
        /\ (open_w log_output = Gives tt ->
            file_write log_output text = Throws exn ->
            trace m = [Call_get_remote_status algo_id; Open_w log_output;
                       File_write log_output text]
            /\ result m = Raised exn))
  /\ (log_written ->
      forall p exn,
        perf = Some p ->
        data_output <> "-" -> data_output <> devnull ->
        to_pickle p data_output = Throws exn ->
        trace m =
          [Call_get_remote_status algo_id] ++ log_effects
          ++ [To_pickle p data_output]
        /\ result m = Raised exn).
Proof.
  intros Hid Hpoll m lo dout log_effects log_written.
  subst m lo dout log_effects log_written.
  options o. subst algo_id0.
  repeat apply conj.
  - intros Hlog Hperf. status_triple Hpoll.
    destruct (log_output =? "-") eqn:L1;
      [ | destruct (log_output =? devnull) eqn:L2;
          [ | apply String.eqb_neq in L1, L2;
              destruct Hlog as [E | [E | [Ho Hw]]]; try congruence;
              rewrite Ho, Hw ] ];
      simpl;
      (destruct perf as [p | ]; [ | simpl; auto]);
      (destruct (data_output =? "-") eqn:D1;
       [ | destruct (data_output =? devnull) eqn:D2;
           [ | apply String.eqb_neq in D1, D2;
               destruct (Hperf p eq_refl) as [E | [E | Hp]]; try congruence;
               rewrite Hp ] ]);
      simpl; auto.
  - intros L1 L2 exn. apply String.eqb_neq in L1, L2. split.
    + intros Ho. status_triple Hpoll. rewrite L1, L2, Ho. simpl. auto.
    + intros Ho Hw. status_triple Hpoll. rewrite L1, L2, Ho, Hw. simpl. auto.
  - intros Hlog p exn -> D1 D2 Hp. status_triple Hpoll.
    apply String.eqb_neq in D1, D2. rewrite D1, D2, Hp.
    destruct (log_output =? "-") eqn:L1;
      [ | destruct (log_output =? devnull) eqn:L2;
          [ | apply String.eqb_neq in L1, L2;
              destruct Hlog as [E | [E | [Ho Hw]]]; try congruence;
              rewrite Ho, Hw ] ];
      simpl; auto.
Qed.

Lemma triple_status_order_witness :
  trace (remote_status posix_devnull
           (fun _ => Gives (Triple "completed" (Some sample_perf) (Some "log")))
           sample_open sample_write sample_pickle
           (sample_status "-" "-"))
  = [Call_get_remote_status "algo-1"; Echo stderr "log";
     Echo stdout ("the performance data is:" ++ newline ++ "perf");
     Print "completed"].
Proof.
  destruct (@triple_status_order posix_devnull
              (fun _ => Gives (Triple "completed" (Some sample_perf)
                                      (Some "log")))
              sample_open sample_write sample_pickle
              (sample_status "-" "-") "algo-1" "completed" "log"
              (Some sample_perf) eq_refl eq_refl) as [H _].
  destruct H as [T _].
  - left. reflexivity.
  - intros p _. left. reflexivity.
  - exact T.
Defined.

(** C2 as stated does not hold: with a log text and a log destination
    that cannot be opened (here the root directory), [open] raises; the
    log is not written, the perf is not echoed and the status is not
    printed. *)
Lemma status_lost_when_log_write_raises :
  let m := remote_status posix_devnull
             (fun _ => Gives (Triple "completed" (Some sample_perf)
                                     (Some "log")))
             sample_open sample_write sample_pickle
             (sample_status "-" "/") in
  trace m = [Call_get_remote_status "algo-1"; Open_w "/"]
  /\ result m = Raised "IsADirectoryError"
  /\ ~ In (Print "completed") (trace m).
Proof.
  repeat split.
  intros [E | [E | []]]; discriminate.
Qed.

(** With a log that is [None] and a log destination that is a file that
    can be opened, [file.write(log)] raises after the file was opened:
    the perf data is not written and the status is not printed. *)
Lemma absent_log_to_file
    (devnull : string)
    (get_remote_status : string -> answer status_response)
    (open_w : string -> answer unit)
    (file_write : string -> string -> answer unit)
    (to_pickle : DataFrame -> string -> answer unit)
    (o : RemoteStatus.options) (algo_id status : string)
    (perf : option DataFrame) :
  RemoteStatus.algo_id o = Some algo_id ->
  get_remote_status algo_id = Gives (Triple status perf None) ->
  (RemoteStatus.log_output o =? "-") = false ->
  (RemoteStatus.log_output o =? devnull) = false ->
  open_w (RemoteStatus.log_output o) = Gives tt ->
  let m := remote_status devnull get_remote_status open_w file_write
             to_pickle o in
  trace m = [Call_get_remote_status algo_id; Open_w (RemoteStatus.log_output o)]
  /\ result m = Raised "TypeError".
Proof.
  intros Hid Hpoll H1 H2 Ho m. subst m. options o. subst algo_id0.
  unfold remote_status, call, write_log.
  repeat (progress (rewrite ?result_bind, ?trace_bind, ?Hpoll, ?H1, ?H2, ?Ho;
                    simpl)).
  auto.
Qed.

(** ** Destination tokens *)

(** C3, as the code has it.  [run] alone knows the token [--].  When
    [run] returns the perf, no file is written for the tokens [--] and
    [-] and for the null device, and for any other token the perf was
    pickled at that path, once, and the pickling succeeded.  [live] does
    the same without the case of [--], which it takes for a path as any
    other token.  When [remote-status] returns on a triple with a perf
    and a log text, the log file was opened and written once, with
    success, unless the log token is [-] or the null device, and the perf
    was pickled once, with success, unless the data token is [-] or the
    null device. *)
Theorem destination_tokens
    (devnull : string) (environ : environment)
    (_run : engine_kwargs -> answer DataFrame)
    (to_pickle : DataFrame -> string -> answer unit)
    (get_remote_status : string -> answer status_response)
    (open_w : string -> answer unit)
    (file_write : string -> string -> answer unit)
    (__IPYTHON__ : bool) :
  (forall (o : Run.options) (perf : DataFrame),
      let m := run_command devnull environ _run to_pickle __IPYTHON__ o in
      result m = Returned perf ->
      file_writes (trace m) =
        (if (Run.output o =? "--") || (Run.output o =? "-")
            || (Run.output o =? devnull)
         then [] else [To_pickle perf (Run.output o)])
      /\ (Run.output o <> "--" -> Run.output o <> "-" ->
          Run.output o <> devnull ->
          to_pickle perf (Run.output o) = Gives tt))
  /\ (forall (o : Live.options) (perf : DataFrame),
      let m := live_command devnull environ _run to_pickle __IPYTHON__ o in
      result m = Returned perf ->
      file_writes (trace m) =
        (if (Live.output o =? "-") || (Live.output o =? devnull)
         then [] else [To_pickle perf (Live.output o)])
      /\ (Live.output o <> "-" -> Live.output o <> devnull ->
          to_pickle perf (Live.output o) = Gives tt))
  /\ (forall (o : RemoteStatus.options) (algo_id status text : string)
             (perf : DataFrame),
      let m := remote_status devnull get_remote_status open_w file_write
                 to_pickle o in
      RemoteStatus.algo_id o = Some algo_id ->
      get_remote_status algo_id = Gives (Triple status (Some perf) (Some text)) ->
      result m = Returned (Status_perf status (Some perf)) ->
      file_writes (trace m) =
        (if (RemoteStatus.log_output o =? "-")
            || (RemoteStatus.log_output o =? devnull)
         then []
         else [Open_w (RemoteStatus.log_output o);
               File_write (RemoteStatus.log_output o) text])
        ++ (if (RemoteStatus.data_output o =? "-")
               || (RemoteStatus.data_output o =? devnull)
            then [] else [To_pickle perf (RemoteStatus.data_output o)])
      /\ (RemoteStatus.log_output o <> "-" ->
          RemoteStatus.log_output o <> devnull ->
          open_w (RemoteStatus.log_output o) = Gives tt
          /\ file_write (RemoteStatus.log_output o) text = Gives tt)
      /\ (RemoteStatus.data_output o <> "-" ->
          RemoteStatus.data_output o <> devnull ->
          to_pickle perf (RemoteStatus.data_output o) = Gives tt)).
Proof.
  repeat apply conj.
  - intros o perf m. subst m. command.
    destruct __IPYTHON__; options o;
      given algofile idtac; given algotext discriminate;
      given start idtac; given end_ discriminate;
      given exchange_name discriminate; given quote_currency discriminate;
      given capital_base discriminate;
      match goal with
      | |- context [_run ?kw] => destruct (_run kw)
      end; tail; intros E; try discriminate E;
      injection E as ->;
      (split; [reflexivity | intros N1 N2 N3 ]);
      rewrite ?String.eqb_eq, ?String.eqb_neq in *; try congruence;
      match goal with
      | u : unit |- _ => now destruct u
      end.
  - intros o perf m. subst m. command.
    destruct __IPYTHON__; options o;
      given algofile idtac; given algotext discriminate;
      given exchange_name discriminate; given algo_namespace discriminate;
      given quote_currency discriminate; given capital_base discriminate;
      destruct simulate_orders; command;
      match goal with
      | |- context [_run ?kw] => destruct (_run kw)
      end; tail; intros E; try discriminate E;
      injection E as ->;
      (split; [reflexivity | intros N1 N2 ]);
      rewrite ?String.eqb_eq, ?String.eqb_neq in *; try congruence;
      match goal with
      | u : unit |- _ => now destruct u
      end.
  - intros o algo_id status text perf m Hid Hpoll. subst m.
    options o. subst algo_id0.
    status_triple Hpoll.
    destruct (log_output =? "-") eqn:L1;
      [ | destruct (log_output =? devnull) eqn:L2;
          [ | destruct (open_w log_output) as [[] | x];
              [destruct (file_write log_output text) as [[] | x] | ] ] ];
      simpl; try discriminate;
      (destruct (data_output =? "-") eqn:D1;
       [ | destruct (data_output =? devnull) eqn:D2;
           [ | destruct (to_pickle perf data_output) as [[] | x] ] ]);
      simpl; try discriminate; intros _;
      rewrite ?String.eqb_eq, ?String.eqb_neq in *;
      (repeat split; intros; congruence).
Qed.

Lemma destination_tokens_witness :
  file_writes
    (trace (run_command posix_devnull [] sample_engine sample_pickle false
              (sample_run None (Some "pass") (Some 0%Z) (Some 1%Z)
                          "perf.pickle" None None)))
  = [To_pickle sample_perf "perf.pickle"].
Proof.
  apply (proj1 (destination_tokens posix_devnull [] sample_engine
                  sample_pickle (fun _ => Gives (Bare "running"))
                  sample_open sample_write false)
           (sample_run None (Some "pass") (Some 0%Z) (Some 1%Z)
                       "perf.pickle" None None) sample_perf).
  reflexivity.
Defined.

(** C3 as stated does not hold: [live] with the output token [--] pickles
    the perf into a file named [--], and so does [remote-status] with the
    data token [--]. *)
Lemma double_dash_is_a_path_outside_run :
  file_writes
    (trace (live_command posix_devnull [] sample_engine sample_pickle false
              (sample_live None (Some "pass") "--" (Some "algo") None)))
  = [To_pickle sample_perf "--"]
  /\ file_writes
       (trace (remote_status posix_devnull
                 (fun _ => Gives (Triple "completed" (Some sample_perf)
                                         (Some "log")))
                 sample_open sample_write sample_pickle
                 (sample_status "--" "-")))
     = [To_pickle sample_perf "--"].
Proof.
  split; reflexivity.
Qed.

(** ** The exchange rule of [ingest-exchange] *)







Lemma known_exchange_In (names : list string) (name : string) :
  known_exchange names name = true <-> In name names.
Proof.
  unfold known_exchange. rewrite existsb_exists. split.
  - intros (x & I & E). apply String.eqb_eq in E. now subst.
  - intros I. exists name. split; [assumption | apply String.eqb_refl].
Qed.



(** ** Validation looks at the options only *)

(** The verdict of [remote-status] is decided by the identifier alone,
    whatever the poll and the file system answer. *)
Lemma remote_status_verdict
    (devnull : string)
    (get_remote_status : string -> answer status_response)
    (open_w : string -> answer unit)
    (file_write : string -> string -> answer unit)
    (to_pickle : DataFrame -> string -> answer unit)
    (o : RemoteStatus.options) :
  verdict (remote_status devnull get_remote_status open_w file_write
             to_pickle o)
  = match RemoteStatus.algo_id o with
    | None =>
        Some "must specify an id of your running algorithm with '--id'"
    | Some _ => None
    end.
Proof.
  options o. destruct algo_id as [id | ]; [ | reflexivity].
  unfold remote_status. simpl. command.
  destruct (get_remote_status id) as [[s | s p l] | x]; try reflexivity.
  rewrite !result_bind, write_perf_spec.
  destruct l as [text | ].
  - rewrite write_log_present. tokens; answers; try reflexivity;
      destruct p; simpl; tokens; answers; reflexivity.
  - unfold write_log. tokens;
      repeat (progress (rewrite ?result_bind, ?result_call_end; simpl));
      answers; try reflexivity;
      destruct p; simpl; tokens; answers; reflexivity.
Qed.

(** C9.  The verdict of a command, accepted or rejected with its
    diagnostic, is a function of the options: it is the same whatever the
    null device, the environment, the answers of the engine, of the
    submission and of the poll, and the IPython flag are.  For
    [ingest-exchange], which consults nothing but its options and the
    constant list of exchange names, the verdict is already fixed by the
    exchange name and the CSV option. *)
Theorem validation_is_pure
    (EXCHANGE_NAMES : list string)
    (devnull devnull' : string) (environ environ' : environment)
    (_run _run' : engine_kwargs -> answer DataFrame)
    (to_pickle to_pickle' : DataFrame -> string -> answer unit)
    (remote_backtest remote_backtest' : engine_kwargs -> answer string)
    (get_remote_status get_remote_status' : string -> answer status_response)
    (open_w open_w' : string -> answer unit)
    (file_write file_write' : string -> string -> answer unit)
    (__IPYTHON__ __IPYTHON__' : bool) :
  (forall o : Run.options,
      verdict (run_command devnull environ _run to_pickle __IPYTHON__ o)
      = verdict (run_command devnull' environ' _run' to_pickle' __IPYTHON__' o))
  /\ (forall o : Live.options,
      verdict (live_command devnull environ _run to_pickle __IPYTHON__ o)
      = verdict (live_command devnull' environ' _run' to_pickle' __IPYTHON__' o))
  /\ (forall o : RemoteRun.options,
      verdict (remote_run_command environ remote_backtest __IPYTHON__ o)
      = verdict (remote_run_command environ' remote_backtest' __IPYTHON__' o))
  /\ (forall o : RemoteStatus.options,
      verdict (remote_status devnull get_remote_status open_w file_write to_pickle o)
      = verdict (remote_status devnull' get_remote_status' open_w' file_write' to_pickle' o))
  /\ (forall o o' : Ingest.options,
      Ingest.exchange_name o = Ingest.exchange_name o' ->
      Ingest.csv o = Ingest.csv o' ->
      verdict (ingest_exchange EXCHANGE_NAMES o)
      = verdict (ingest_exchange EXCHANGE_NAMES o')).
Proof.
  repeat apply conj.
  - intros o. command.
    destruct __IPYTHON__, __IPYTHON__'; options o;
      given algofile idtac; given algotext reflexivity;
      given start idtac; given end_ reflexivity;
      given exchange_name reflexivity; given quote_currency reflexivity;
      given capital_base reflexivity;
      repeat match goal with
        | |- context [_run ?kw] => destruct (_run kw)
        | |- context [_run' ?kw] => destruct (_run' kw)
        end; tail; reflexivity.
  - intros o. command.
    destruct __IPYTHON__, __IPYTHON__'; options o;
      given algofile idtac; given algotext reflexivity;
      given exchange_name reflexivity; given algo_namespace reflexivity;
      given quote_currency reflexivity; given capital_base reflexivity;
      destruct simulate_orders; command;
      repeat match goal with
        | |- context [_run ?kw] => destruct (_run kw)
        | |- context [_run' ?kw] => destruct (_run' kw)
        end; tail; reflexivity.
  - intros o. command.
    destruct __IPYTHON__, __IPYTHON__'; options o;
      given algofile idtac; given algotext reflexivity;
      given start idtac; given end_ reflexivity;
      given exchange_name reflexivity; given quote_currency reflexivity;
      given capital_base reflexivity;
      destruct (mail_rejected mail); simpl; try reflexivity;
      repeat match goal with
        | |- context [remote_backtest ?kw] => destruct (remote_backtest kw)
        | |- context [remote_backtest' ?kw] => destruct (remote_backtest' kw)
        end; tail; reflexivity.
  - intros o. now rewrite !remote_status_verdict.
  - intros o o' Hx Hc. options o. options o'. subst.
    destruct exchange_name0; [ | reflexivity].
    unfold ingest_exchange. simpl. command. destruct (py_not csv0 && negb (known_exchange EXCHANGE_NAMES s));
      reflexivity.
Qed.

Lemma validation_is_pure_witness :
  verdict (ingest_exchange sample_exchanges
             (sample_ingest "unknownxyz" None None None None None))
  = verdict (ingest_exchange sample_exchanges
               (sample_ingest "unknownxyz" None (Some 0%Z) (Some 1%Z)
                              (Some "btc_usd") (Some "eth_usd"))).
Proof.
  apply (validation_is_pure sample_exchanges posix_devnull posix_devnull
           [] [] sample_engine sample_engine sample_pickle sample_pickle
           sample_backend sample_backend
           (fun _ => Gives (Bare "running")) (fun _ => Gives (Bare "running"))
           sample_open sample_open sample_write sample_write false false);
    reflexivity.
Defined.

(** ** The local namespace outside IPython *)

(** C10.  Outside IPython, every call of [_run] by [run] and by [live],
    and every call of [remote_backtest] by [remote-run], forwards [None]
    as the local namespace, whatever the options are. *)
Theorem local_namespace_cleared
    (devnull : string) (environ : environment)
    (_run : engine_kwargs -> answer DataFrame)
    (to_pickle : DataFrame -> string -> answer unit)
    (remote_backtest : engine_kwargs -> answer string) :
  (forall (o : Run.options) (kw : engine_kwargs),
      In (Call_run kw) (trace (run_command devnull environ _run to_pickle false o)) ->
      kw_local_namespace kw = None)
  /\ (forall (o : Live.options) (kw : engine_kwargs),
      In (Call_run kw) (trace (live_command devnull environ _run to_pickle false o)) ->
      kw_local_namespace kw = None)
  /\ (forall (o : RemoteRun.options) (kw : engine_kwargs),
      In (Call_remote_backtest kw)
         (trace (remote_run_command environ remote_backtest false o)) ->
      kw_local_namespace kw = None).
Proof.
  repeat apply conj.
  - intros o kw. command. options o;
      given algofile idtac; given algotext tauto;
      given start idtac; given end_ tauto;
      given exchange_name tauto; given quote_currency tauto;
      given capital_base tauto;
      match goal with
      | |- context [_run ?k] => destruct (_run k)
      end; tail;
      intros I; repeat destruct I as [I | I]; try discriminate I;
      try (injection I as <-; reflexivity); destruct I.
  - intros o kw. command. options o;
      given algofile idtac; given algotext tauto;
      given exchange_name tauto; given algo_namespace tauto;
      given quote_currency tauto; given capital_base tauto;
      destruct simulate_orders; command;
      match goal with
      | |- context [_run ?k] => destruct (_run k)
      end; tail;
      intros I; repeat destruct I as [I | I]; try discriminate I;
      try (injection I as <-; reflexivity); destruct I.
  - intros o kw. command. options o;
      given algofile idtac; given algotext tauto;
      given start idtac; given end_ tauto;
      given exchange_name tauto; given quote_currency tauto;
      given capital_base tauto;
      destruct (mail_rejected mail); simpl; try tauto;
      match goal with
      | |- context [remote_backtest ?k] => destruct (remote_backtest k)
      end; tail;
      intros I; repeat destruct I as [I | I]; try discriminate I;
      try (injection I as <-; reflexivity); destruct I.
Qed.

Lemma local_namespace_cleared_witness :
  In (Call_run (run_kwargs []
                  (sample_run None (Some "pass") (Some 0%Z) (Some 1%Z)
                              "-" None None)))
     (trace (run_command posix_devnull [] sample_engine sample_pickle false
               (sample_run None (Some "pass") (Some 0%Z) (Some 1%Z)
                           "-" None (Some true))))
  /\ kw_local_namespace
       (run_kwargs []
          (sample_run None (Some "pass") (Some 0%Z) (Some 1%Z)
                      "-" None None)) = None.
Proof.
  assert (I : In (Call_run (run_kwargs []
                     (sample_run None (Some "pass") (Some 0%Z) (Some 1%Z)
                                 "-" None None)))
                 (trace (run_command posix_devnull [] sample_engine sample_pickle false
                           (sample_run None (Some "pass") (Some 0%Z) (Some 1%Z)
                                       "-" None (Some true)))))
    by (simpl; right; left; reflexivity).
  split; [exact I | ].
  exact (proj1 (local_namespace_cleared posix_devnull [] sample_engine sample_pickle
                  sample_backend) _ _ I).
Defined.

(** * Further properties of the commands *)

(** ** What validation accepts *)

(** X1.  [run] passes validation exactly when one algorithm source is
    given and the start date, the end date, the exchange name, the quote
    currency and the capital base are all given.  Nothing else is
    looked at: not the namespace, the bundle or the output. *)
Theorem run_accepted_iff
    (devnull : string) (environ : environment)
    (_run : engine_kwargs -> answer DataFrame)
    (to_pickle : DataFrame -> string -> answer unit)
    (__IPYTHON__ : bool) (o : Run.options) :
  verdict (run_command devnull environ _run to_pickle __IPYTHON__ o) = None <->
  ((Run.algofile o <> None /\ Run.algotext o = None)
   \/ (Run.algofile o = None /\ Run.algotext o <> None))
  /\ Run.start o <> None /\ Run.end_ o <> None
  /\ Run.exchange_name o <> None /\ Run.quote_currency o <> None
  /\ Run.capital_base o <> None.
Proof.
  command.
  destruct __IPYTHON__; options o;
    given algofile idtac;
    given algotext ltac:(split; [discriminate | intuition congruence]);
    given start idtac;
    given end_ ltac:(split; [discriminate | intuition congruence]);
    given exchange_name ltac:(split; [discriminate | intuition congruence]);
    given quote_currency ltac:(split; [discriminate | intuition congruence]);
    given capital_base ltac:(split; [discriminate | intuition congruence]);
    (split; [intros _; intuition congruence | intros _]);
    match goal with
    | |- context [_run ?kw] => destruct (_run kw)
    end; tail; reflexivity.
Qed.

(** X2.  [live] passes validation exactly when one algorithm source is
    given and the exchange name, the namespace, the quote currency and
    the capital base are all given; the dates are free. *)
Theorem live_accepted_iff
    (devnull : string) (environ : environment)
    (_run : engine_kwargs -> answer DataFrame)
    (to_pickle : DataFrame -> string -> answer unit)
    (__IPYTHON__ : bool) (o : Live.options) :
  verdict (live_command devnull environ _run to_pickle __IPYTHON__ o) = None <->
  ((Live.algofile o <> None /\ Live.algotext o = None)
   \/ (Live.algofile o = None /\ Live.algotext o <> None))
  /\ Live.exchange_name o <> None /\ Live.algo_namespace o <> None
  /\ Live.quote_currency o <> None /\ Live.capital_base o <> None.
Proof.
  command.
  destruct __IPYTHON__; options o;
    given algofile idtac;
    given algotext ltac:(split; [discriminate | intuition congruence]);
    given exchange_name ltac:(split; [discriminate | intuition congruence]);
    given algo_namespace ltac:(split; [discriminate | intuition congruence]);
    given quote_currency ltac:(split; [discriminate | intuition congruence]);
    given capital_base ltac:(split; [discriminate | intuition congruence]);
    (split; [intros _; intuition congruence | intros _]);
    destruct simulate_orders; command;
    match goal with
    | |- context [_run ?kw] => destruct (_run kw)
    end; tail; reflexivity.
Qed.

(** X3.  [remote-run] passes validation exactly when the rules of [run]
    hold and the mail option is given with a value of the shape
    local-part@domain.tld. *)
Theorem remote_run_accepted_iff
    (environ : environment)
    (remote_backtest : engine_kwargs -> answer string)
    (__IPYTHON__ : bool) (o : RemoteRun.options) :
  verdict (remote_run_command environ remote_backtest __IPYTHON__ o) = None <->
  ((RemoteRun.algofile o <> None /\ RemoteRun.algotext o = None)
   \/ (RemoteRun.algofile o = None /\ RemoteRun.algotext o <> None))
  /\ RemoteRun.start o <> None /\ RemoteRun.end_ o <> None
  /\ RemoteRun.exchange_name o <> None /\ RemoteRun.quote_currency o <> None
  /\ RemoteRun.capital_base o <> None
  /\ exists a, RemoteRun.mail o = Some a /\ mail_shape a.
Proof.
  command.
  destruct __IPYTHON__; options o;
    given algofile idtac;
    given algotext ltac:(split; [discriminate | intuition congruence]);
    given start idtac;
    given end_ ltac:(split; [discriminate | intuition congruence]);
    given exchange_name ltac:(split; [discriminate | intuition congruence]);
    given quote_currency ltac:(split; [discriminate | intuition congruence]);
    given capital_base ltac:(split; [discriminate | intuition congruence]);
    (destruct (mail_rejected mail) eqn:R;
     [ apply mail_rejected_spec in R; split; [discriminate | ];
       intros (_ & _ & _ & _ & _ & _ & a & E & S);
       destruct R as [R | (b & Eb & N)]; [congruence | ];
       rewrite E in Eb; injection Eb as <-; contradiction
     | split;
       [ intros _; repeat (split; [intuition congruence | ]);
         destruct mail as [a | ]; [ | discriminate R];
         exists a; split; [reflexivity | ];
         apply re_match_mail_shape; simpl in R;
         now apply negb_false_iff in R
       | intros _;
         match goal with
         | |- context [remote_backtest ?kw] => destruct (remote_backtest kw)
         end; tail; reflexivity ] ]).
Qed.

(** X4.  [ingest-exchange] passes validation exactly when an exchange
    name is given and either the CSV option is a non-empty text or the
    name is one of the known exchanges. *)
Theorem ingest_accepted_iff
    (EXCHANGE_NAMES : list string) (o : Ingest.options) :
  verdict (ingest_exchange EXCHANGE_NAMES o) = None <->
  exists name, Ingest.exchange_name o = Some name
    /\ ((exists path, Ingest.csv o = Some path /\ path <> "")
        \/ In name EXCHANGE_NAMES).
Proof.
  options o. unfold ingest_exchange. simpl.
  destruct exchange_name as [name | ].
  - command.
    destruct (known_exchange EXCHANGE_NAMES name) eqn:K.
    + rewrite andb_false_r. simpl. split; [intros _ | reflexivity].
      exists name. split; [reflexivity | right].
      now apply known_exchange_In.
    + rewrite andb_true_r.
      assert (N : ~ In name EXCHANGE_NAMES).
      { rewrite <- known_exchange_In. congruence. }
      destruct csv as [[ | c path] | ]; simpl.
      * split; [discriminate | ].
        intros (n & E & [(p & Ep & Np) | I]); congruence.
      * split; [intros _ | reflexivity].
        exists name. split; [reflexivity | left].
        exists (String c path). split; [reflexivity | discriminate].
      * split; [discriminate | ].
        intros (n & E & [(p & Ep & Np) | I]); congruence.
  - split; [discriminate | ]. intros (n & E & _). discriminate.
Qed.

(** X5.  A command that is rejected has performed nothing: whichever
    rule fails, no line was echoed, no collaborator was called and no
    file was touched. *)
Theorem rejection_has_no_effect
    (devnull : string) (environ : environment)
    (EXCHANGE_NAMES : list string)
    (_run : engine_kwargs -> answer DataFrame)
    (to_pickle : DataFrame -> string -> answer unit)
    (remote_backtest : engine_kwargs -> answer string)
    (get_remote_status : string -> answer status_response)
    (open_w : string -> answer unit)
    (file_write : string -> string -> answer unit)
    (__IPYTHON__ : bool) (msg : string) :
  (forall o : Run.options,
      verdict (run_command devnull environ _run to_pickle __IPYTHON__ o) = Some msg ->
      trace (run_command devnull environ _run to_pickle __IPYTHON__ o) = [])
  /\ (forall o : Live.options,
      verdict (live_command devnull environ _run to_pickle __IPYTHON__ o) = Some msg ->
      trace (live_command devnull environ _run to_pickle __IPYTHON__ o) = [])
  /\ (forall o : RemoteRun.options,
      verdict (remote_run_command environ remote_backtest __IPYTHON__ o)
      = Some msg ->
      trace (remote_run_command environ remote_backtest __IPYTHON__ o) = [])
  /\ (forall o : RemoteStatus.options,
      verdict (remote_status devnull get_remote_status open_w file_write to_pickle o) = Some msg ->
      trace (remote_status devnull get_remote_status open_w file_write to_pickle o) = [])
  /\ (forall o : Ingest.options,
      verdict (ingest_exchange EXCHANGE_NAMES o) = Some msg ->
      trace (ingest_exchange EXCHANGE_NAMES o) = []).
Proof.
  repeat apply conj.
  - intros o. command.
    destruct __IPYTHON__; options o;
      given algofile idtac; given algotext reflexivity;
      given start idtac; given end_ reflexivity;
      given exchange_name reflexivity; given quote_currency reflexivity;
      given capital_base reflexivity;
      match goal with
      | |- context [_run ?kw] => destruct (_run kw)
      end; tail; discriminate.
  - intros o. command.
    destruct __IPYTHON__; options o;
      given algofile idtac; given algotext reflexivity;
      given exchange_name reflexivity; given algo_namespace reflexivity;
      given quote_currency reflexivity; given capital_base reflexivity;
      destruct simulate_orders; command;
      match goal with
      | |- context [_run ?kw] => destruct (_run kw)
      end; tail; discriminate.
  - intros o. command.
    destruct __IPYTHON__; options o;
      given algofile idtac; given algotext reflexivity;
      given start idtac; given end_ reflexivity;
      given exchange_name reflexivity; given quote_currency reflexivity;
      given capital_base reflexivity;
      destruct (mail_rejected mail); simpl; try reflexivity;
      match goal with
      | |- context [remote_backtest ?kw] => destruct (remote_backtest kw)
      end; tail; discriminate.
  - intros o H. rewrite remote_status_verdict in H. options o.
    destruct algo_id; [discriminate H | reflexivity].
  - intros o. options o. destruct exchange_name as [name | ];
      [ | reflexivity].
    unfold ingest_exchange. simpl. command.
    destruct (py_not csv && negb (known_exchange EXCHANGE_NAMES name));
      [reflexivity | discriminate].
Qed.

Lemma rejection_has_no_effect_witness :
  trace (run_command posix_devnull [] sample_engine sample_pickle false
           (sample_run None (Some "pass") None None "-" None None)) = [].
Proof.
  apply (proj1 (rejection_has_no_effect posix_devnull [] sample_exchanges
                  sample_engine sample_pickle sample_backend
                  (fun _ => Gives (Bare "running"))
                  sample_open sample_write false
                  "must specify dates with '-s' / '--start' and '-e' / '--end' in backtest mode")).
  reflexivity.
Defined.

(** ** Which diagnostic a rejection carries *)

Ltac table :=
  repeat match goal with
    | |- (_ <-> _) /\ _ => split
    end;
  (split; [intros E; try discriminate E; intuition congruence
          | intuition congruence]).

(** X6.  The checks of [run] after the source and the dates come in the
    order exchange name, quote currency, capital base, and each
    diagnostic is given exactly when the rules before it hold and its
    own option is absent. *)
Theorem run_diagnostic_order
    (devnull : string) (environ : environment)
    (_run : engine_kwargs -> answer DataFrame)
    (to_pickle : DataFrame -> string -> answer unit)
    (__IPYTHON__ : bool) (o : Run.options) :
  let m := run_command devnull environ _run to_pickle __IPYTHON__ o in
  let one_source :=
    (Run.algofile o <> None /\ Run.algotext o = None)
    \/ (Run.algofile o = None /\ Run.algotext o <> None) in
  let dates := Run.start o <> None /\ Run.end_ o <> None in
  (verdict m = Some "must specify an exchange name '-x'" <->
   one_source /\ dates /\ Run.exchange_name o = None)
  /\ (verdict m = Some "must specify a quote currency with '-c' in backtest mode" <->
      one_source /\ dates /\ Run.exchange_name o <> None
      /\ Run.quote_currency o = None)
  /\ (verdict m = Some "must specify a capital base with '--capital-base'" <->
      one_source /\ dates /\ Run.exchange_name o <> None
      /\ Run.quote_currency o <> None /\ Run.capital_base o = None).
Proof.
  intros m one_source dates. subst m one_source dates. command.
  destruct __IPYTHON__; options o;
    given algofile idtac; given algotext table;
    given start idtac; given end_ table;
    given exchange_name table; given quote_currency table;
    given capital_base table;
    match goal with
    | |- context [_run ?kw] => destruct (_run kw)
    end; tail; table.
Qed.

(** X7.  The checks of [live] after the source come in the order
    exchange name, namespace, quote currency, capital base, and each
    diagnostic is given exactly when the rules before it hold and its
    own option is absent. *)
Theorem live_diagnostic_order
    (devnull : string) (environ : environment)
    (_run : engine_kwargs -> answer DataFrame)
    (to_pickle : DataFrame -> string -> answer unit)
    (__IPYTHON__ : bool) (o : Live.options) :
  let m := live_command devnull environ _run to_pickle __IPYTHON__ o in
  let one_source :=
    (Live.algofile o <> None /\ Live.algotext o = None)
    \/ (Live.algofile o = None /\ Live.algotext o <> None) in
  (verdict m = Some "must specify an exchange name '-x'" <->
   one_source /\ Live.exchange_name o = None)
  /\ (verdict m = Some "must specify an algorithm name '-n' in live execution mode" <->
      one_source /\ Live.exchange_name o <> None
      /\ Live.algo_namespace o = None)
  /\ (verdict m = Some "must specify a quote currency '-c' in live execution mode" <->
      one_source /\ Live.exchange_name o <> None
      /\ Live.algo_namespace o <> None /\ Live.quote_currency o = None)
  /\ (verdict m = Some "must specify a capital base with '--capital-base'" <->
      one_source /\ Live.exchange_name o <> None
      /\ Live.algo_namespace o <> None /\ Live.quote_currency o <> None
      /\ Live.capital_base o = None).
Proof.
  intros m one_source. subst m one_source. command.
  destruct __IPYTHON__; options o;
    given algofile idtac; given algotext table;
    given exchange_name table; given algo_namespace table;
    given quote_currency table; given capital_base table;
    destruct simulate_orders; command;
    match goal with
    | |- context [_run ?kw] => destruct (_run kw)
    end; tail; table.
Qed.

(** ** The call to the engine *)

(** X8.  An accepted [run] calls the engine exactly once, in the
    backtest configuration (not live, orders simulated, no live graph, no
    authentication aliases, no mail), and hands over the operator's
    sources, dates, capital, exchange, currency, namespace and output
    token unchanged. *)
Theorem run_engine_call
    (devnull : string) (environ : environment)
    (_run : engine_kwargs -> answer DataFrame)
    (to_pickle : DataFrame -> string -> answer unit)
    (__IPYTHON__ : bool) (o : Run.options) :
  let m := run_command devnull environ _run to_pickle __IPYTHON__ o in
  verdict m = None ->
  exists kw,
    engine_calls (trace m) = [Call_run kw]
    /\ kw_live kw = false /\ kw_simulate_orders kw = true
    /\ kw_live_graph kw = false /\ kw_auth_aliases kw = None
    /\ kw_mail kw = None
    /\ kw_algofile kw = Run.algofile o /\ kw_algotext kw = Run.algotext o
    /\ kw_start kw = Run.start o /\ kw_end kw = Run.end_ o
    /\ kw_capital_base kw = Run.capital_base o
    /\ kw_exchange kw = Run.exchange_name o
    /\ kw_quote_currency kw = Run.quote_currency o
    /\ kw_algo_namespace kw = Run.algo_namespace o
    /\ kw_output kw = Run.output o
    /\ kw_environ kw = environ.
Proof.
  intros m H.
  exists (run_kwargs environ
            (if __IPYTHON__ then o else Run.clear_local_namespace o)).
  split; [ | destruct __IPYTHON__; options o; repeat split].
  revert H. subst m. command.
  destruct __IPYTHON__; options o;
    given algofile idtac; given algotext discriminate;
    given start idtac; given end_ discriminate;
    given exchange_name discriminate; given quote_currency discriminate;
    given capital_base discriminate;
    intros _;
    match goal with
    | |- context [_run ?kw] => destruct (_run kw)
    end; tail; reflexivity.
Qed.

Lemma run_engine_call_witness :
  exists kw,
    engine_calls
      (trace (run_command posix_devnull [] sample_engine sample_pickle false
                (sample_run None (Some "pass") (Some 0%Z) (Some 1%Z)
                            "perf.pickle" None None)))
    = [Call_run kw]
    /\ kw_live kw = false /\ kw_simulate_orders kw = true.
Proof.
  destruct (@run_engine_call posix_devnull [] sample_engine sample_pickle false
              (sample_run None (Some "pass") (Some 0%Z) (Some 1%Z)
                          "perf.pickle" None None) eq_refl)
    as (kw & E & L & S & _).
  exists kw. auto.
Defined.

(** X9.  An accepted [live] first announces the mode, paper trading
    when orders are simulated and live trading otherwise, and then calls
    the engine once, in live mode, with the operator's order-simulation
    flag and with no data frequency, bundle or bundle timestamp. *)
Theorem live_engine_call
    (devnull : string) (environ : environment)
    (_run : engine_kwargs -> answer DataFrame)
    (to_pickle : DataFrame -> string -> answer unit)
    (__IPYTHON__ : bool) (o : Live.options) :
  let m := live_command devnull environ _run to_pickle __IPYTHON__ o in
  verdict m = None ->
  exists kw rest,
    trace m =
      Echo stdout (if Live.simulate_orders o
                   then "Running in paper trading mode."
                   else "Running in live trading mode.")
      :: Call_run kw :: rest
    /\ engine_calls rest = []
    /\ kw_live kw = true
    /\ kw_simulate_orders kw = Live.simulate_orders o
    /\ kw_live_graph kw = Live.live_graph o
    /\ kw_auth_aliases kw = Live.auth_aliases o
    /\ kw_data_frequency kw = None /\ kw_bundle kw = None
    /\ kw_bundle_timestamp kw = None.
Proof.
  intros m. subst m. command.
  destruct __IPYTHON__; options o;
    given algofile idtac; given algotext discriminate;
    given exchange_name discriminate; given algo_namespace discriminate;
    given quote_currency discriminate; given capital_base discriminate;
    intros _; destruct simulate_orders; command;
    match goal with
    | |- context [_run ?kw] => destruct (_run kw)
    end; tail; do 2 eexists; repeat split.
Qed.

Lemma live_engine_call_witness :
  exists kw rest,
    trace (live_command posix_devnull [] sample_engine sample_pickle false
             (sample_live None (Some "pass") "-" (Some "algo") None))
    = Echo stdout "Running in paper trading mode." :: Call_run kw :: rest
    /\ kw_live kw = true.
Proof.
  destruct (@live_engine_call posix_devnull [] sample_engine sample_pickle false
              (sample_live None (Some "pass") "-" (Some "algo") None) eq_refl)
    as (kw & rest & E & _ & L & _).
  exists kw, rest. auto.
Defined.

(** X10.  An accepted [remote-run] submits once, as a backtest whose
    output token is [--] and with the operator's mail address; it then
    prints the identifier the backend returned and returns it.  When the
    submission raises, nothing is printed and the exception is the
    outcome. *)
Theorem remote_run_submission
    (environ : environment)
    (remote_backtest : engine_kwargs -> answer string)
    (__IPYTHON__ : bool) (o : RemoteRun.options) :
  let m := remote_run_command environ remote_backtest __IPYTHON__ o in
  verdict m = None ->
  exists kw,
    kw_output kw = "--" /\ kw_live kw = false
    /\ kw_simulate_orders kw = true
    /\ kw_mail kw = RemoteRun.mail o
    /\ trace m =
         Call_remote_backtest kw
         :: match remote_backtest kw with
            | Gives algo_id => [Print algo_id]
            | Throws _ => []
            end
    /\ result m =
         match remote_backtest kw with
         | Gives algo_id => Returned algo_id
         | Throws exn => Raised exn
         end.
Proof.
  intros m H.
  exists (remote_kwargs environ
            (if __IPYTHON__ then o else RemoteRun.clear_local_namespace o)).
  repeat apply conj;
    try (destruct __IPYTHON__; options o; reflexivity);
    revert H; subst m; command;
    destruct __IPYTHON__; options o;
    given algofile idtac; given algotext discriminate;
    given start idtac; given end_ discriminate;
    given exchange_name discriminate; given quote_currency discriminate;
    given capital_base discriminate;
    destruct (mail_rejected mail); simpl; try discriminate;
    intros _;
    match goal with
    | |- context [remote_backtest ?kw] => destruct (remote_backtest kw)
    end; tail; reflexivity.
Qed.

Lemma remote_run_submission_witness :
  exists kw,
    kw_output kw = "--"
    /\ trace (remote_run_command [] sample_backend false
                (sample_remote None (Some "pass") (Some 0%Z) (Some 1%Z)
                               (Some "ops@example.com") None))
       = [Call_remote_backtest kw; Print "algo-1"].
Proof.
  destruct (@remote_run_submission [] sample_backend false
              (sample_remote None (Some "pass") (Some 0%Z) (Some 1%Z)
                             (Some "ops@example.com") None) eq_refl)
    as (kw & O & _ & _ & _ & T & _).
  exists kw. split; [exact O | exact T].
Defined.

(** X11.  The outcome of an accepted [run] or [live] follows the engine
    and the one write after it.  When the engine raises, its exception
    is the outcome and nothing is echoed or written after the call.
    When the engine returns a perf, the command returns that perf,
    unless the output token is a path and pickling the perf there
    raises: then that exception is the outcome. *)
Theorem outcome_follows_engine
    (devnull : string) (environ : environment)
    (_run : engine_kwargs -> answer DataFrame)
    (to_pickle : DataFrame -> string -> answer unit)
    (__IPYTHON__ : bool) :
  (forall o : Run.options,
      let m := run_command devnull environ _run to_pickle __IPYTHON__ o in
      let kw := run_kwargs environ
                  (if __IPYTHON__ then o else Run.clear_local_namespace o) in
      verdict m = None ->
      result m =
        match _run kw with
        | Throws exn => Raised exn
        | Gives perf =>
            if (Run.output o =? "--") || (Run.output o =? "-")
               || (Run.output o =? devnull)
            then Returned perf
            else match to_pickle perf (Run.output o) with
                 | Gives _ => Returned perf
                 | Throws exn => Raised exn
                 end
        end
      /\ forall exn, _run kw = Throws exn ->
           trace m = [Echo stdout "Running in backtesting mode."; Call_run kw])
  /\ (forall o : Live.options,
      let m := live_command devnull environ _run to_pickle __IPYTHON__ o in
      let kw := live_kwargs environ
                  (if __IPYTHON__ then o else Live.clear_local_namespace o) in
      verdict m = None ->
      result m =
        match _run kw with
        | Throws exn => Raised exn
        | Gives perf =>
            if (Live.output o =? "-") || (Live.output o =? devnull)
            then Returned perf
            else match to_pickle perf (Live.output o) with
                 | Gives _ => Returned perf
                 | Throws exn => Raised exn
                 end
        end
      /\ forall exn, _run kw = Throws exn ->
           trace m =
             [Echo stdout (if Live.simulate_orders o
                           then "Running in paper trading mode."
                           else "Running in live trading mode.");
              Call_run kw]).
Proof.
  split.
  - intros o m kw. subst m kw. command.
    destruct __IPYTHON__; options o;
      given algofile idtac; given algotext discriminate;
      given start idtac; given end_ discriminate;
      given exchange_name discriminate; given quote_currency discriminate;
      given capital_base discriminate;
      intros _;
      match goal with
      | |- context [_run ?kw] => destruct (_run kw)
      end; tail;
      (split; [reflexivity | intros exn E; try discriminate E; reflexivity]).
  - intros o m kw. subst m kw. command.
    destruct __IPYTHON__; options o;
      given algofile idtac; given algotext discriminate;
      given exchange_name discriminate; given algo_namespace discriminate;
      given quote_currency discriminate; given capital_base discriminate;
      intros _; destruct simulate_orders; command;
      match goal with
      | |- context [_run ?kw] => destruct (_run kw)
      end; tail;
      (split; [reflexivity | intros exn E; try discriminate E; reflexivity]).
Qed.

Lemma outcome_follows_engine_witness :
  result (run_command posix_devnull [] sample_engine sample_pickle false
            (sample_run None (Some "pass") (Some 0%Z) (Some 1%Z)
                        "/" None None))
  = Raised "IsADirectoryError".
Proof.
  destruct (proj1 (outcome_follows_engine posix_devnull []
                     sample_engine sample_pickle false)
              (sample_run None (Some "pass") (Some 0%Z) (Some 1%Z)
                          "/" None None) eq_refl) as [E _].
  exact E.
Defined.

(** ** The poll of [remote-status], continued *)

(** What the log branch performs for a log that is [None]. *)
Lemma write_log_absent
    (devnull : string) (open_w : string -> answer unit)
    (file_write : string -> string -> answer unit)
    (log_output : string) :
  write_log devnull open_w file_write log_output None =
  if log_output =? "-" then ([Echo stderr "None"], Returned tt)
  else if log_output =? devnull then ([], Returned tt)
  else
    match open_w log_output with
    | Throws exn => ([Open_w log_output], Raised exn)
    | Gives _ => ([Open_w log_output], Raised "TypeError")
    end.
Proof.
  unfold write_log, call, bind. simpl.
  destruct (log_output =? "-"); [reflexivity | ].
  destruct (log_output =? devnull); [reflexivity | ]. simpl.
  destruct (open_w log_output) as [[] | exn]; reflexivity.
Qed.

(** X12.  [remote-status] with an identifier polls once, with that
    identifier, before anything else.  When the poll raises, the
    exception is the outcome and nothing is printed or written. *)
Theorem remote_status_polls_once
    (devnull : string)
    (get_remote_status : string -> answer status_response)
    (open_w : string -> answer unit)
    (file_write : string -> string -> answer unit)
    (to_pickle : DataFrame -> string -> answer unit)
    (o : RemoteStatus.options) (algo_id : string) :
  RemoteStatus.algo_id o = Some algo_id ->
  let m := remote_status devnull get_remote_status open_w file_write to_pickle o in
  (exists rest,
      trace m = Call_get_remote_status algo_id :: rest
      /\ forall other, ~ In (Call_get_remote_status other) rest)
  /\ (forall exn, get_remote_status algo_id = Throws exn ->
        trace m = [Call_get_remote_status algo_id]
        /\ result m = Raised exn).
Proof.
  intros Hid m. subst m. options o. subst algo_id0.
  unfold remote_status. simpl. command. split.
  - eexists. split; [reflexivity | ].
    intros other.
    destruct (get_remote_status algo_id) as [[s | s p l] | x]; simpl;
      repeat (progress (rewrite ?result_bind, ?trace_bind,
                          ?write_perf_spec; simpl));
      try (destruct l; rewrite ?write_log_present, ?write_log_absent);
      try destruct p; tokens; answers;
      intros I; repeat destruct I as [I | I]; try discriminate I;
      destruct I.
  - intros exn E. rewrite E. simpl. auto.
Qed.

Lemma remote_status_polls_once_witness :
  trace (remote_status posix_devnull (fun _ => Throws "ConnectionError")
           sample_open sample_write sample_pickle
           (sample_status "-" "-"))
  = [Call_get_remote_status "algo-1"].
Proof.
  destruct (@remote_status_polls_once posix_devnull
              (fun _ => Throws "ConnectionError")
              sample_open sample_write sample_pickle
              (sample_status "-" "-") "algo-1" eq_refl) as [_ H].
  destruct (H "ConnectionError" eq_refl) as [T _].
  exact T.
Defined.

(** X13.  On a triple whose log is [None], the log branch has no test
    for it.  With the log token [-] the text [None] is echoed to
    [stderr]; then the perf, if present, goes to the data destination
    and the status is printed last, as long as pickling the perf does
    not raise.  With a log file that can be opened, the file is opened,
    [file.write] raises [TypeError], and neither the perf nor the status
    is output. *)
Theorem absent_log_behaviour
    (devnull : string)
    (get_remote_status : string -> answer status_response)
    (open_w : string -> answer unit)
    (file_write : string -> string -> answer unit)
    (to_pickle : DataFrame -> string -> answer unit)
    (o : RemoteStatus.options) (algo_id status : string)
    (perf : option DataFrame) :
  RemoteStatus.algo_id o = Some algo_id ->
  get_remote_status algo_id = Gives (Triple status perf None) ->
  let m := remote_status devnull get_remote_status open_w file_write
             to_pickle o in
  let data_output := RemoteStatus.data_output o in
  (RemoteStatus.log_output o = "-" ->
   (forall p, perf = Some p ->
      data_output = "-" \/ data_output = devnull
      \/ to_pickle p data_output = Gives tt) ->
   trace m =
     [Call_get_remote_status algo_id; Echo stderr "None"]
     ++ match perf with
        | Some p =>
            if data_output =? "-" then
              [Echo stdout
                 ("the performance data is:" ++ newline ++ frame_str p)]
            else if data_output =? devnull then []
            else [To_pickle p data_output]
        | None => []
        end
     ++ [Print status]
   /\ result m = Returned (Status_perf status perf))
  /\ (RemoteStatus.log_output o <> "-" ->
      RemoteStatus.log_output o <> devnull ->
      open_w (RemoteStatus.log_output o) = Gives tt ->
      trace m = [Call_get_remote_status algo_id;
                 Open_w (RemoteStatus.log_output o)]
      /\ result m = Raised "TypeError").
Proof.
  intros Hid Hpoll m dout. split.
  - intros L Hperf. subst m dout. options o. subst algo_id0 log_output.
    unfold remote_status, call.
    repeat (progress (rewrite ?result_bind, ?trace_bind, ?Hpoll,
                        ?write_log_absent, ?write_perf_spec; simpl)).
    destruct perf as [p | ]; [ | simpl; auto].
    destruct (data_output =? "-") eqn:D1;
      [ | destruct (data_output =? devnull) eqn:D2;
          [ | apply String.eqb_neq in D1, D2;
              destruct (Hperf p eq_refl) as [E | [E | Hp]]; try congruence;
              rewrite Hp ] ];
      simpl; auto.
  - intros L1 L2 Ho. apply String.eqb_neq in L1, L2.
    now apply (@absent_log_to_file devnull get_remote_status open_w
                 file_write to_pickle o algo_id status perf).
Qed.

Lemma absent_log_behaviour_witness :
  result (remote_status posix_devnull
            (fun _ => Gives (Triple "running" (Some sample_perf) None))
            sample_open sample_write sample_pickle
            (sample_status "perf.pickle" "algo.log"))
  = Raised "TypeError".
Proof.
  destruct (@absent_log_behaviour posix_devnull
              (fun _ => Gives (Triple "running" (Some sample_perf) None))
              sample_open sample_write sample_pickle
              (sample_status "perf.pickle" "algo.log") "algo-1" "running"
              (Some sample_perf) eq_refl eq_refl) as [_ H].
  destruct H as [_ R].
  - discriminate.
  - discriminate.
  - reflexivity.
  - exact R.
Defined.

(** ** The local namespace under IPython *)

(** X14.  Under IPython the decorator leaves the option alone: every
    call of the engine or of the submission forwards the local
    namespace the operator passed. *)
Theorem local_namespace_forwarded
    (devnull : string) (environ : environment)
    (_run : engine_kwargs -> answer DataFrame)
    (to_pickle : DataFrame -> string -> answer unit)
    (remote_backtest : engine_kwargs -> answer string) :
  (forall (o : Run.options) (kw : engine_kwargs),
      In (Call_run kw) (trace (run_command devnull environ _run to_pickle true o)) ->
      kw_local_namespace kw = Run.local_namespace o)
  /\ (forall (o : Live.options) (kw : engine_kwargs),
      In (Call_run kw) (trace (live_command devnull environ _run to_pickle true o)) ->
      kw_local_namespace kw = Live.local_namespace o)
  /\ (forall (o : RemoteRun.options) (kw : engine_kwargs),
      In (Call_remote_backtest kw)
         (trace (remote_run_command environ remote_backtest true o)) ->
      kw_local_namespace kw = RemoteRun.local_namespace o).
Proof.
  repeat apply conj.
  - intros o kw. command. options o;
      given algofile idtac; given algotext tauto;
      given start idtac; given end_ tauto;
      given exchange_name tauto; given quote_currency tauto;
      given capital_base tauto;
      match goal with
      | |- context [_run ?k] => destruct (_run k)
      end; tail;
      intros I; repeat destruct I as [I | I]; try discriminate I;
      try (injection I as <-; reflexivity); destruct I.
  - intros o kw. command. options o;
      given algofile idtac; given algotext tauto;
      given exchange_name tauto; given algo_namespace tauto;
      given quote_currency tauto; given capital_base tauto;
      destruct simulate_orders; command;
      match goal with
      | |- context [_run ?k] => destruct (_run k)
      end; tail;
      intros I; repeat destruct I as [I | I]; try discriminate I;
      try (injection I as <-; reflexivity); destruct I.
  - intros o kw. command. options o;
      given algofile idtac; given algotext tauto;
      given start idtac; given end_ tauto;
      given exchange_name tauto; given quote_currency tauto;
      given capital_base tauto;
      destruct (mail_rejected mail); simpl; try tauto;
      match goal with
      | |- context [remote_backtest ?k] => destruct (remote_backtest k)
      end; tail;
      intros I; repeat destruct I as [I | I]; try discriminate I;
      try (injection I as <-; reflexivity); destruct I.
Qed.

Lemma local_namespace_forwarded_witness :
  kw_local_namespace
    (run_kwargs []
       (sample_run None (Some "pass") (Some 0%Z) (Some 1%Z)
                   "-" None (Some true))) = Some true.
Proof.
  apply (proj1 (local_namespace_forwarded posix_devnull [] sample_engine sample_pickle
                  sample_backend)
           (sample_run None (Some "pass") (Some 0%Z) (Some 1%Z)
                       "-" None (Some true))).
  simpl. right. left. reflexivity.
Defined.

(** ** The mail check, continued *)

Lemma list_ascii_of_string_app (a b : string) :
  list_ascii_of_string (a ++ b)
  = list_ascii_of_string a ++ list_ascii_of_string b.
Proof.
  induction a as [ | c a IH]; simpl; [reflexivity | now rewrite IH].
Qed.

(** X15.  The mail check looks at the beginning of the address only:
    an address that passes still passes with any text appended, a second
    [@] or white space included. *)
Theorem mail_check_not_anchored (address suffix : string) :
  mail_rejected (Some address) = false ->
  mail_rejected (Some (address ++ suffix)%string) = false.
Proof.
  unfold mail_rejected, re_match. rewrite !negb_false_iff.
  rewrite !match_prefix_spec, list_ascii_of_string_app.
  intros (p & q & E & M).
  exists p, (q ++ list_ascii_of_string suffix).
  split; [ | exact M].
  now rewrite E, app_assoc.
Qed.

Lemma mail_check_not_anchored_witness :
  mail_rejected (Some ("ops@example.com" ++ "@evil and more")%string) = false.
Proof.
  apply mail_check_not_anchored. reflexivity.
Defined.

(** X16.  What every address that passes has: an [@] that is not its
    first character, a dot, and at least five characters. *)
Theorem mail_check_requires (address : string) :
  mail_rejected (Some address) = false ->
  In "@"%char (list_ascii_of_string address)
  /\ In "."%char (list_ascii_of_string address)
  /\ (forall rest, address <> String "@" rest)
  /\ 5 <= String.length address.
Proof.
  unfold mail_rejected. rewrite negb_false_iff, re_match_mail_shape.
  intros (x & y & c & rest & E & Hx & Hy & Nx & Ny & Hc).
  repeat apply conj.
  - rewrite E. apply in_or_app. right. now left.
  - rewrite E. apply in_or_app. right. right.
    apply in_or_app. right. now left.
  - intros r ->. simpl in E.
    destruct x as [ | a x]; [congruence | ].
    simpl in E. injection E as <- _. apply Nx. now left.
  - rewrite <- (string_of_list_ascii_of_string address), E.
    destruct x as [ | a x]; [congruence | ].
    destruct y as [ | b y]; [congruence | ].
    clear. induction x as [ | a' x IH]; simpl in *.
    + induction y as [ | b' y IHy]; simpl in *; lia.
    + lia.
Qed.

Lemma mail_check_requires_witness :
  5 <= String.length "ops@example.com".
Proof.
  apply (@mail_check_requires "ops@example.com"). reflexivity.
Defined.
